(** * GramVaani importer (bin/import_gram_vaani.py): a shallow embedding

    The importer downloads the audio files named by a CSV manifest,
    converts them to wav, filters the rows and splits them into
    train/dev/test manifests.  The script is Python on top of pandas,
    swifter, sox and urllib; this file embeds the functions of the script
    and models the libraries it calls through their documented behaviour:

    - Python [str] values are lists of code points ([pystr]);
    - the file system is a finite map from path strings to nodes; paths
      are compared as strings (no normalisation, no symbolic links), and
      [os.path] is [posixpath];
    - exceptions are an error monad over an explicit state (the world,
      and for [GramVaaniDataSets] also the object's attributes), so that
      whatever was written before an exception stays written;
    - Python floats are IEEE binary64, through [SpecFloat];
    - a [DataFrame] is a list of labelled rows;
    - [DataFrame.swifter.apply(func, axis=1)] is the row-wise apply it
      stands for.  The source fixes no order for it: in [download] the
      rows are visited in an order the environment chooses; in
      [_convert_csv_data_to_raw_data], whose function only reads, the
      results are collected in manifest order. *)

From Stdlib Require Import ZArith NArith List Bool Lia String Ascii.
From Stdlib Require Import SpecFloat Reals Lra.
From stdpp Require Import gmap list.

Local Open Scope Z_scope.

(** ** Python values *)

Definition pystr := list N.

(** The code points of an ASCII literal. *)
Definition u (s : string) : pystr :=
  List.map N_of_ascii (list_ascii_of_string s).

Inductive exn :=
| AttributeError | TypeError | ValueError | KeyError | OverflowError
| ZeroDivisionError | FileNotFoundError | FileExistsError
| URLError | SoxError | CalledProcessError.

Inductive result (A : Type) :=
| Ok (a : A)
| Raise (e : exn).
Arguments Ok {A} a.
Arguments Raise {A} e.

(** State and exceptions: [M S A] is a computation over a state [S] that
    returns an [A] or raises; the state survives the exception. *)
Definition M (S A : Type) : Type := S -> result A * S.

Definition ret {S A} (a : A) : M S A := fun s => (Ok a, s).
Definition raise {S A} (e : exn) : M S A := fun s => (Raise e, s).
Definition bind {S A B} (m : M S A) (k : A -> M S B) : M S B :=
  fun s => match m s with
           | (Ok a, s') => k a s'
           | (Raise e, s') => (Raise e, s')
           end.
Definition get {S} : M S S := fun s => (Ok s, s).
Definition put {S} (s : S) : M S unit := fun _ => (Ok tt, s).
Definition lift {S A} (r : result A) : M S A := fun s => (r, s).

#[global] Instance M_ret {S} : MRet (M S) := fun A a => ret a.
#[global] Instance M_bind {S} : MBind (M S) := fun A B k m => bind m k.

(** A [for] loop over a list, and a row-wise apply collecting the results:
    both stop at the first exception. *)
Fixpoint for_each {S A} (f : A -> M S unit) (l : list A) : M S unit :=
  match l with
  | [] => mret tt
  | x :: l' => f x;; for_each f l'
  end.

Fixpoint apply_rows {S A B} (f : A -> M S B) (l : list A) : M S (list B) :=
  match l with
  | [] => mret []
  | x :: l' => y ← f x; ys ← apply_rows f l'; mret (y :: ys)
  end.

(** ** str methods *)

Module Str.

(** [str.isspace] on one code point (Py_UNICODE_ISSPACE). *)
Definition isspace (c : N) : bool :=
  ((9 <=? c) && (c <=? 13) || (28 <=? c) && (c <=? 32)
   || (c =? 133) || (c =? 160) || (c =? 5760)
   || (8192 <=? c) && (c <=? 8202)
   || (c =? 8232) || (c =? 8233) || (c =? 8239) || (c =? 8287)
   || (c =? 12288))%N.

Fixpoint lstrip (s : pystr) : pystr :=
  match s with
  | [] => []
  | c :: s' => if isspace c then lstrip s' else s
  end.

Definition rstrip (s : pystr) : pystr := rev (lstrip (rev s)).

Definition strip (s : pystr) : pystr := rstrip (lstrip s).

Definition len (s : pystr) : Z := Z.of_nat (length s).

(** [s.rfind(c)] for a one-character [c]: the highest index, or -1. *)
Fixpoint rfind_from (c : N) (s : pystr) (i last : Z) : Z :=
  match s with
  | [] => last
  | x :: s' => rfind_from c s' (i + 1) (if (x =? c)%N then i else last)
  end.

Definition rfind (c : N) (s : pystr) : Z := rfind_from c s 0 (-1).

(** [s[i:]] and [s[:i]] for [0 <= i]. *)
Definition slice_from (s : pystr) (i : Z) : pystr := skipn (Z.to_nat i) s.
Definition slice_to (s : pystr) (i : Z) : pystr := firstn (Z.to_nat i) s.

Definition startswith1 (s : pystr) (c : N) : bool :=
  match s with
  | x :: _ => (x =? c)%N
  | [] => false
  end.

Definition endswith1 (s : pystr) (c : N) : bool := startswith1 (rev s) c.

Fixpoint startswith (s p : pystr) : bool :=
  match p, s with
  | [], _ => true
  | c :: p', x :: s' => (x =? c)%N && startswith s' p'
  | _ :: _, [] => false
  end.

Definition endswith (s p : pystr) : bool := startswith (rev s) (rev p).

End Str.

(** ** os.path (posixpath) on strings *)

Module path.

Definition sep : N := 47.      (* "/" *)
Definition extsep : N := 46.   (* "." *)

(** i = p.rfind('/') + 1; return p[i:] *)
Definition basename (p : pystr) : pystr :=
  let i := Str.rfind sep p + 1 in
  Str.slice_from p i.

(** join(a, b) with one component [b]. *)
Definition join (a b : pystr) : pystr :=
  if Str.startswith1 b sep then b
  else if match a with [] => true | _ => Str.endswith1 a sep end
       then a ++ b
       else a ++ sep :: b.

(** genericpath._splitext: the loop skips the leading dots of the name. *)
Fixpoint splitext_scan (p : pystr) (filenameIndex dotIndex : Z) (fuel : nat)
  : pystr * pystr :=
  match fuel with
  | O => (p, [])
  | S fuel' =>
      if filenameIndex <? dotIndex then
        if negb (match nth_error p (Z.to_nat filenameIndex) with
                 | Some c => (c =? extsep)%N
                 | None => false
                 end)
        then (Str.slice_to p dotIndex, Str.slice_from p dotIndex)
        else splitext_scan p (filenameIndex + 1) dotIndex fuel'
      else (p, [])
  end.

Definition splitext (p : pystr) : pystr * pystr :=
  let sepIndex := Str.rfind sep p in
  let dotIndex := Str.rfind extsep p in
  if sepIndex <? dotIndex
  then splitext_scan p (sepIndex + 1) dotIndex (S (length p))
  else (p, []).

End path.

(** ** The world outside the interpreter *)

(** A file-system entry: a directory or a file, the size [os.path.getsize]
    reports for it, and the sample count [soxi -s] prints for it, if it
    prints one. *)
Record node := Node {
  n_is_dir : bool;
  n_size : Z;
  n_frames : option Z
}.

Definition dir_node : node := Node true 4096 None.

(** The retrievals and the transcodings that completed, in order. *)
Inductive event :=
| Retrieved (url dst : pystr)
| Transcoded (src dst : pystr).

Record World := {
  files : gmap pystr node;
  trace : list event
}.

(** The labelled rows of the output frames: a [DataFrame] with the columns
    wav_filename, wav_filesize, transcript. *)
Record out_row := OutRow {
  wav_filename : pystr;
  wav_filesize : Z;
  transcript : pystr
}.

Definition frame := list (Z * out_row).

(** A row of the manifest. *)
Record csv_row := CsvRow {
  audio_url : pystr;
  csv_transcript : pystr;
  audio_length : Z
}.

#[global] Instance csv_row_eq_dec : EqDecision csv_row.
Proof. solve_decision. Defined.

(** How [urllib.request.urlretrieve] ends for a URL: the file is written
    whole; or the request fails before the destination is opened; or the
    transfer fails after it was opened, and a truncated file stays. *)
Inductive retrieval :=
| Fetched (nd : node)
| Refused (e : exn)
| Interrupted (truncated : node) (e : exn).

(** The collaborators the script calls and does not define. *)
Record Env := {
  (** how the retrieval of a URL ends *)
  remote : pystr -> retrieval;
  (** the rows in the order [swifter.apply] calls [_download] on them: any
      order, and a row may come more than once *)
  visit_order : list csv_row -> list csv_row;
  (** the file sox builds from a source path; [None]: sox raises *)
  sox_output : pystr -> option node;
  (** [util.text.validate_label] *)
  validate_label : pystr -> option pystr;
  (** the order [DataFrame.sample(frac=1)] draws *)
  sample_frac1 : frame -> frame;
  (** the file [DataFrame.to_csv] writes for a frame *)
  csv_file : frame -> node
}.

Module os.

Definition path_exists (p : pystr) : M World bool :=
  w ← get; mret (match files w !! p with Some _ => true | None => false end).

(** [os.mkdir]: the parent directory is taken to exist. *)
Definition mkdir (p : pystr) : M World unit :=
  w ← get;
  match files w !! p with
  | Some _ => raise FileExistsError
  | None => put {| files := <[p := dir_node]> (files w); trace := trace w |}
  end.

Definition getsize (p : pystr) : M World Z :=
  w ← get;
  match files w !! p with
  | Some nd => mret (n_size nd)
  | None => raise FileNotFoundError
  end.

(** [pathlib.Path(d).glob('**/*.mp3')]: every entry below [d] whose name
    ends in .mp3, in the order of the scan. *)
Definition glob_mp3 (d : pystr) : M World (list pystr) :=
  w ← get;
  mret (List.filter
          (fun p => Str.startswith p (d ++ [path.sep]) && Str.endswith p (u ".mp3"))
          (map_to_list (files w)).*1).

End os.

(** [urllib.request.urlretrieve(url, filename)] *)
Definition urlretrieve (env : Env) (url filename : pystr) : M World unit :=
  match remote env url with
  | Fetched nd =>
      w ← get;
      put {| files := <[filename := nd]> (files w);
             trace := trace w ++ [Retrieved url filename] |}
  | Refused e => raise e
  | Interrupted truncated e =>
      w ← get;
      put {| files := <[filename := truncated]> (files w); trace := trace w |};;
      raise e
  end.

(** [Transformer().convert(...)] then [.build(src, dst)] *)
Definition sox_build (env : Env) (src dst : pystr) : M World unit :=
  match sox_output env src with
  | Some nd =>
      w ← get;
      put {| files := <[dst := nd]> (files w);
             trace := trace w ++ [Transcoded src dst] |}
  | None => raise SoxError
  end.

(** [subprocess.check_output(['soxi', '-s', filename])] read as an [int] *)
Definition soxi_s (filename : pystr) : M World Z :=
  w ← get;
  match files w !! filename with
  | Some nd =>
      match n_frames nd with
      | Some frames => mret frames
      | None => raise CalledProcessError
      end
  | None => raise CalledProcessError
  end.

(** ** The manifest *)

Module GramVaaniCSV.
Record t := { data : list csv_row }.
End GramVaaniCSV.

(** ** GramVaaniDownloader *)

Module GramVaaniDownloader.

Record t := {
  directory : pystr;
  data : list csv_row
}.

Definition __init__ (gram_vaani_csv : GramVaaniCSV.t) (directory : pystr) : t :=
  {| directory := directory; data := GramVaaniCSV.data gram_vaani_csv |}.

Section methods.
Context (env : Env).

Definition _pre_download (self : t) : M World pystr :=
  let mp3_directory := path.join (directory self) (u "mp3") in
  b ← os.path_exists (directory self);
  (if negb b then os.mkdir (directory self) else mret tt);;
  b ← os.path_exists mp3_directory;
  (if negb b then os.mkdir mp3_directory else mret tt);;
  mret mp3_directory.

Definition _download (self : t) (audio_url transcript : pystr)
    (audio_length : Z) (mp3_directory : pystr) : M World unit :=
  let mp3_filename := path.join mp3_directory (path.basename audio_url) in
  b ← os.path_exists mp3_filename;
  if negb b then urlretrieve env audio_url mp3_filename else mret tt.

Definition download (self : t) : M World pystr :=
  mp3_directory ← _pre_download self;
  apply_rows
    (fun arg => _download self (audio_url arg) (csv_transcript arg)
                  (audio_length arg) mp3_directory)
    (visit_order env (data self));;
  mret mp3_directory.

End methods.

End GramVaaniDownloader.

(** ** GramVaaniConverter *)

Module GramVaaniConverter.

Record t := {
  directory : pystr;
  mp3_directory : pystr
}.

Definition __init__ (directory mp3_directory : pystr) : t :=
  {| directory := directory; mp3_directory := mp3_directory |}.

Section methods.
Context (env : Env).

Definition _pre_convert (self : t) : M World pystr :=
  let wav_directory := path.join (directory self) (u "wav") in
  b ← os.path_exists (directory self);
  (if negb b then os.mkdir (directory self) else mret tt);;
  b ← os.path_exists wav_directory;
  (if negb b then os.mkdir wav_directory else mret tt);;
  mret wav_directory.

(** The body of the [for] loop of [convert]. *)
Definition convert_one (wav_directory mp3_filename : pystr) : M World unit :=
  let wav_filename :=
    path.join wav_directory
      ((path.splitext (path.basename mp3_filename)).1 ++ u ".wav") in
  b ← os.path_exists wav_filename;
  if negb b then sox_build env mp3_filename wav_filename else mret tt.

Definition convert (self : t) : M World pystr :=
  wav_directory ← _pre_convert self;
  mp3s ← os.glob_mp3 (mp3_directory self);
  for_each (convert_one wav_directory) mp3s;;
  mret wav_directory.

End methods.

End GramVaaniConverter.

(** ** Python floats: IEEE binary64 *)

Module Float.

Definition prec : Z := 53.
Definition emax : Z := 1024.

(** An [int] as an operand of an exact quotient: mantissa [|z|],
    exponent 0. *)
Definition int_operand (z : Z) : spec_float :=
  match z with
  | Z0 => S754_zero false
  | Zpos p => S754_finite false p 0
  | Zneg p => S754_finite true p 0
  end.

(** [float(z)]: the nearest double; OverflowError beyond the range. *)
Definition of_int (z : Z) : result spec_float :=
  match binary_normalize prec emax z 0 false with
  | S754_infinity _ => Raise OverflowError
  | x => Ok x
  end.

(** [a / b] on two [int]s: the correctly rounded quotient. *)
Definition int_truediv (a b : Z) : result spec_float :=
  if b =? 0 then Raise ZeroDivisionError
  else match SFdiv prec emax (int_operand a) (int_operand b) with
       | S754_infinity _ => Raise OverflowError
       | x => Ok x
       end.

(** [x * z] and [z * x] with [x] a float and [z] an [int]. *)
Definition mul_int (x : spec_float) (z : Z) : result spec_float :=
  match of_int z with
  | Ok y => Ok (SFmul prec emax x y)
  | Raise e => Raise e
  end.

Definition int_mul (z : Z) (x : spec_float) : result spec_float :=
  match of_int z with
  | Ok y => Ok (SFmul prec emax y x)
  | Raise e => Raise e
  end.

(** [x / z] with [x] a float and [z] an [int]. *)
Definition div_int (x : spec_float) (z : Z) : result spec_float :=
  if z =? 0 then Raise ZeroDivisionError
  else match of_int z with
       | Ok y => Ok (SFdiv prec emax x y)
       | Raise e => Raise e
       end.

(** [x > z] with [z] an [int] that a double holds exactly. *)
Definition gt_int (x : spec_float) (z : Z) : bool :=
  SFltb (binary_normalize prec emax z 0 false) x.

(** The integer part of [m * 2^e], towards minus infinity. *)
Definition floor_pos (m : positive) (e : Z) : Z :=
  if 0 <=? e then Z.shiftl (Z.pos m) e else Z.shiftr (Z.pos m) (- e).

Definition floor_neg (m : positive) (e : Z) : Z :=
  if 0 <=? e then Z.shiftl (Z.neg m) e else Z.shiftr (Z.neg m) (- e).

(** [int(x)]: towards zero. *)
Definition to_int (x : spec_float) : result Z :=
  match x with
  | S754_zero _ => Ok 0
  | S754_finite false m e => Ok (floor_pos m e)
  | S754_finite true m e => Ok (- floor_pos m e)
  | S754_infinity _ => Raise OverflowError
  | S754_nan => Raise ValueError
  end.

(** [math.floor(x)] *)
Definition floor (x : spec_float) : result Z :=
  match x with
  | S754_zero _ => Ok 0
  | S754_finite false m e => Ok (floor_pos m e)
  | S754_finite true m e => Ok (floor_neg m e)
  | S754_infinity _ => Raise OverflowError
  | S754_nan => Raise ValueError
  end.

End Float.

(** ** Module constants *)

Definition MAX_SECS : Z := 10.
Definition BITDEPTH : Z := 16.
Definition N_CHANNELS : Z := 1.
Definition SAMPLE_RATE : Z := 16000.

(** The doubles the literals 0.10 and 0.80 denote. *)
Definition DEV_PERCENTAGE : spec_float := S754_finite false 7205759403792794 (-56).
Definition TRAIN_PERCENTAGE : spec_float := S754_finite false 7205759403792794 (-53).

(** ** Dynamically typed values where the script depends on them *)

#[warnings="-register-all"]
Inductive pyobj :=
| PStr (s : pystr)
| PInt (z : Z)
| PBool (b : bool)
| PSeries (xs : list pyobj)
| PModule (name : pystr).

(** The global name [path] of the script: [from os import path]. *)
Definition path_module : pyobj := PModule (u "os.path").

(** [x.strip()]: only [str] has the method. *)
Definition attr_strip (x : pyobj) : result pystr :=
  match x with
  | PStr s => Ok (Str.strip s)
  | _ => Raise AttributeError
  end.

(** [path.join(a, x)] *)
Definition join_obj (a : pystr) (x : pyobj) : result pystr :=
  match x with
  | PStr s => Ok (path.join a s)
  | _ => Raise TypeError
  end.

(** [len(str(x))] for a [str]. *)
Definition len_str (x : pyobj) : result Z :=
  match x with
  | PStr s => Ok (Str.len s)
  | _ => Raise TypeError
  end.

(** ** DataFrame operations *)

Module DataFrame.

Definition empty : frame := [].

Definition len (fr : frame) : Z := Z.of_nat (length fr).

(** The default index 0, 1, ... over a list of rows. *)
Fixpoint label_from (i : Z) (rows : list out_row) : frame :=
  match rows with
  | [] => []
  | r :: rows' => (i, r) :: label_from (i + 1) rows'
  end.

Definition reset_index (fr : frame) : frame := label_from 0 fr.*2.

Definition index (fr : frame) : list Z := fr.*1.

(** [fr.drop(labels)] *)
Definition drop (fr : frame) (labels : list Z) : frame :=
  List.filter (fun lr => negb (bool_decide (lr.1 ∈ labels))) fr.

(** [fr[key]]: a boolean Series selects rows; a scalar that is not a
    column label is a KeyError. *)
Fixpoint select (fr : frame) (mask : list pyobj) : frame :=
  match fr, mask with
  | lr :: fr', PBool true :: mask' => lr :: select fr' mask'
  | _ :: fr', _ :: mask' => select fr' mask'
  | _, _ => []
  end.

Definition getitem (fr : frame) (key : pyobj) : result frame :=
  match key with
  | PSeries mask => Ok (select fr mask)
  | _ => Raise KeyError
  end.

(** [fr.loc[a:b]] on an increasing index: label slicing includes both
    ends. *)
Definition loc (fr : frame) (a b : Z) : frame :=
  List.filter (fun lr => (a <=? lr.1) && (lr.1 <=? b)) fr.

(** Columns as Series. *)
Definition col_wav_filename (fr : frame) : pyobj :=
  PSeries (List.map (fun lr => PStr (wav_filename lr.2)) fr).
Definition col_wav_filesize (fr : frame) : pyobj :=
  PSeries (List.map (fun lr => PInt (wav_filesize lr.2)) fr).
Definition col_transcript (fr : frame) : pyobj :=
  PSeries (List.map (fun lr => PStr (transcript lr.2)) fr).

(** [fr.to_csv(path_or_buf, ...)]: a path is written, anything that is
    neither a path nor a file object is refused. *)
Definition to_csv (env : Env) (fr : frame) (path_or_buf : pyobj) : M World unit :=
  match path_or_buf with
  | PStr p =>
      w ← get;
      put {| files := <[p := csv_file env fr]> (files w); trace := trace w |}
  | _ => raise ValueError
  end.

End DataFrame.

(** ** GramVaaniDataSets *)

Module GramVaaniDataSets.

Record t := {
  directory : pystr;
  wav_directory : pystr;
  csv_data : list csv_row;
  raw : frame;
  valid : frame;
  train : frame;
  dev : frame;
  test : frame
}.

Definition __init__ (directory wav_directory : pystr)
    (gram_vaani_csv : GramVaaniCSV.t) : t :=
  {| directory := directory;
     wav_directory := wav_directory;
     csv_data := GramVaaniCSV.data gram_vaani_csv;
     raw := DataFrame.empty;
     valid := DataFrame.empty;
     train := DataFrame.empty;
     dev := DataFrame.empty;
     test := DataFrame.empty |}.

(** The methods run over the world and the attributes of [self]. *)
Definition state : Type := World * t.

Definition in_world {A} (m : M World A) : M state A :=
  fun s => let '(r, w') := m s.1 in (r, (w', s.2)).

Definition get_self : M state t := fun s => (Ok s.2, s).

Definition set_raw (fr : frame) : M state unit :=
  fun s =>
    (Ok tt, (s.1, {| directory := directory s.2; wav_directory := wav_directory s.2;
                     csv_data := csv_data s.2; raw := fr; valid := valid s.2;
                     train := train s.2; dev := dev s.2; test := test s.2 |})).

Definition set_valid (fr : frame) : M state unit :=
  fun s =>
    (Ok tt, (s.1, {| directory := directory s.2; wav_directory := wav_directory s.2;
                     csv_data := csv_data s.2; raw := raw s.2; valid := fr;
                     train := train s.2; dev := dev s.2; test := test s.2 |})).

(** What [getattr(self, name)] finds. *)
Inductive attribute :=
| AFrame (fr : frame)
| AManifest (rows : list csv_row)
| AStr (s : pystr).

Definition getattr (self : t) (name : pystr) : result attribute :=
  if bool_decide (name = u "train") then Ok (AFrame (train self))
  else if bool_decide (name = u "dev") then Ok (AFrame (dev self))
  else if bool_decide (name = u "test") then Ok (AFrame (test self))
  else if bool_decide (name = u "raw") then Ok (AFrame (raw self))
  else if bool_decide (name = u "valid") then Ok (AFrame (valid self))
  else if bool_decide (name = u "csv_data") then Ok (AManifest (csv_data self))
  else if bool_decide (name = u "directory") then Ok (AStr (directory self))
  else if bool_decide (name = u "wav_directory") then Ok (AStr (wav_directory self))
  else Raise AttributeError.

Section methods.
Context (env : Env).

Definition _convert_csv_data_to_raw_data_impl
    (audio_url transcript : pystr) (audio_length : Z) : M state out_row :=
  self ← get_self;
  let mp3_filename := path.basename audio_url in
  let wav_relative_filename :=
    path.join (u "wav")
      ((path.splitext (path.basename mp3_filename)).1 ++ u ".wav") in
  wav_filesize ←
    in_world (os.getsize (path.join (directory self) wav_relative_filename));
  let transcript := validate_label env transcript in
  let transcript := match transcript with
                    | None => u ""
                    | Some t => t
                    end in
  mret (OutRow wav_relative_filename wav_filesize transcript).

Definition _convert_csv_data_to_raw_data : M state unit :=
  self ← get_self;
  rows ← apply_rows
           (fun arg => _convert_csv_data_to_raw_data_impl
                         (audio_url arg) (csv_transcript arg) (audio_length arg))
           (csv_data self);
  set_raw (DataFrame.label_from 0 rows).

Definition _is_row_invalid (wav_filename wav_filesize transcript : pyobj)
  : M state bool :=
  self ← get_self;
  stripped ← lift (attr_strip transcript);
  if bool_decide (stripped = []) then mret true
  else
    wav_filename ← lift (join_obj (directory self) wav_filename);
    frames ← in_world (soxi_s wav_filename);
    secs ← lift (Float.int_truediv frames SAMPLE_RATE);
    x ← lift (Float.mul_int secs 1000);
    x ← lift (Float.div_int x 10);
    x ← lift (Float.div_int x 2);
    n ← lift (Float.to_int x);
    l ← lift (len_str transcript);
    if n <? l then mret true
    else
      secs ← lift (Float.int_truediv frames SAMPLE_RATE);
      if Float.gt_int secs MAX_SECS then mret true
      else mret false.

Definition _calculate_data_set_sizes : M state (Z * Z * Z) :=
  self ← get_self;
  let total_size := DataFrame.len (valid self) in
  x ← lift (Float.int_mul total_size DEV_PERCENTAGE);
  dev_size ← lift (Float.floor x);
  x ← lift (Float.int_mul total_size TRAIN_PERCENTAGE);
  train_size ← lift (Float.floor x);
  let test_size := total_size - (train_size + dev_size) in
  mret (train_size, dev_size, test_size).

(** Lines 213 to 216 of [create]: the sizes and the three slices, which
    are bound to local names. *)
Definition create_slices : M state (frame * frame * frame) :=
  '(train_size, dev_size, test_size) ← _calculate_data_set_sizes;
  self ← get_self;
  let train := DataFrame.loc (valid self) 0 train_size in
  let dev := DataFrame.loc (valid self) train_size (train_size + dev_size) in
  let test := DataFrame.loc (valid self) (train_size + dev_size)
                (train_size + dev_size + test_size) in
  mret (train, dev, test).

Definition create : M state unit :=
  _convert_csv_data_to_raw_data;;
  self ← get_self;
  invalid ← _is_row_invalid (DataFrame.col_wav_filename (raw self))
              (DataFrame.col_wav_filesize (raw self))
              (DataFrame.col_transcript (raw self));
  selected ← lift (DataFrame.getitem (raw self) (PBool invalid));
  set_valid (DataFrame.drop (raw self) (DataFrame.index selected));;
  self ← get_self;
  set_valid (DataFrame.reset_index (sample_frac1 env (valid self)));;
  create_slices;;
  mret tt.

Definition _save (dataset : pystr) : M state unit :=
  self ← get_self;
  let dataset_path := path.join (directory self) (dataset ++ u ".csv") in
  dataframe ← lift (getattr self dataset);
  match dataframe with
  | AFrame fr => in_world (DataFrame.to_csv env fr path_module)
  | AManifest _ => raise ValueError
  | AStr _ => raise AttributeError
  end.

Definition save : M state unit :=
  let datasets := [u "train"; u "dev"; u "test"] in
  for_each _save datasets.

End methods.

End GramVaaniDataSets.

(** ** Vocabulary of the properties *)

Definition present (w : World) (p : pystr) : Prop := is_Some (files w !! p).

Definition grows (w w' : World) : Prop := forall p, present w p -> present w' p.

(** A guarded [mkdir]: afterwards the directory is there, whatever was
    there stays, and nothing is raised. *)
Definition ensure_dir (p : pystr) : M World unit :=
  b ← os.path_exists p; if negb b then os.mkdir p else mret tt.


(** The row-wise apply of [download]. *)
Definition download_rows (env : Env) (self : GramVaaniDownloader.t) (d : pystr)
    (rows : list csv_row) : M World (list unit) :=
  apply_rows (fun arg => GramVaaniDownloader._download env self (audio_url arg)
                           (csv_transcript arg) (audio_length arg) d) rows.

(** The wav file [convert] builds for an mp3 file. *)
Definition wav_target (wav_directory mp3_filename : pystr) : pystr :=
  path.join wav_directory
    ((path.splitext (path.basename mp3_filename)).1 ++ u ".wav").

(** What the glob of [convert] matches. *)
Definition is_mp3_below (d p : pystr) : bool :=
  Str.startswith p (d ++ [path.sep]) && Str.endswith p (u ".mp3").

(** ** A small corpus to run the functions on *)

Module Demo.

Definition row_a : csv_row := CsvRow (u "http://h.example/k/a.mp3") (u "hello") 2.
Definition row_b : csv_row := CsvRow (u "http://h.example/k/b.mp3") (u "") 3.
Definition row_c : csv_row := CsvRow (u "http://h.example/k/c.mp3") (u "xyz") 1.

(** Another row, on another host, whose file has the name of [row_a]'s. *)
Definition row_a' : csv_row := CsvRow (u "http://g.example/a.mp3") (u "bye") 5.

Definition mp3_node : node := Node false 48000 None.
Definition wav_node : node := Node false 64044 (Some 32000).

(** Every URL answers; sox converts everything. *)
Definition env_ok : Env :=
  {| remote := fun _ => Fetched mp3_node;
     visit_order := fun rows => rows;
     sox_output := fun _ => Some wav_node;
     validate_label := fun t => Some t;
     sample_frac1 := fun fr => fr;
     csv_file := fun fr => Node false (DataFrame.len fr) None |}.



Definition world0 : World := {| files := ∅; trace := [] |}.

Definition manifest : GramVaaniCSV.t := {| GramVaaniCSV.data := [row_a; row_b; row_c] |}.

Definition downloader : GramVaaniDownloader.t :=
  GramVaaniDownloader.__init__ manifest (u "out").

Definition converter : GramVaaniConverter.t :=
  GramVaaniConverter.__init__ (u "out") (u "out/mp3").

End Demo.

(** The wav file whose size [_convert_csv_data_to_raw_data_impl] asks for. *)
Definition asset_path (directory audio_url : pystr) : pystr :=
  path.join directory
    (path.join (u "wav")
       ((path.splitext (path.basename (path.basename audio_url))).1 ++ u ".wav")).

(** The arithmetic of [_calculate_data_set_sizes] on a total. *)
Definition sizes_of (total_size : Z) : result (Z * Z * Z) :=
  match Float.int_mul total_size DEV_PERCENTAGE with
  | Raise e => Raise e
  | Ok x =>
      match Float.floor x with
      | Raise e => Raise e
      | Ok dev_size =>
          match Float.int_mul total_size TRAIN_PERCENTAGE with
          | Raise e => Raise e
          | Ok y =>
              match Float.floor y with
              | Raise e => Raise e
              | Ok train_size =>
                  Ok (train_size, dev_size, total_size - (train_size + dev_size))
              end
          end
      end
  end.

(** A computation that leaves the three partition attributes alone. *)
Definition keeps_partitions {A} (m : M GramVaaniDataSets.state A) : Prop :=
  forall s,
    GramVaaniDataSets.train (m s).2.2 = GramVaaniDataSets.train s.2
    /\ GramVaaniDataSets.dev (m s).2.2 = GramVaaniDataSets.dev s.2
    /\ GramVaaniDataSets.test (m s).2.2 = GramVaaniDataSets.test s.2.

(** [self] with another [valid] frame. *)
Definition with_valid (self : GramVaaniDataSets.t) (fr : frame) : GramVaaniDataSets.t :=
  {| GramVaaniDataSets.directory := GramVaaniDataSets.directory self;
     GramVaaniDataSets.wav_directory := GramVaaniDataSets.wav_directory self;
     GramVaaniDataSets.csv_data := GramVaaniDataSets.csv_data self;
     GramVaaniDataSets.raw := GramVaaniDataSets.raw self;
     GramVaaniDataSets.valid := fr;
     GramVaaniDataSets.train := GramVaaniDataSets.train self;
     GramVaaniDataSets.dev := GramVaaniDataSets.dev self;
     GramVaaniDataSets.test := GramVaaniDataSets.test self |}.

Module DemoSets.

Definition datasets : GramVaaniDataSets.t :=
  GramVaaniDataSets.__init__ (u "out") (u "out/wav") Demo.manifest.

(** The wav files of [row_a] and [row_c] are there, the one of [row_b]
    is not. *)
Definition world_without_b : World :=
  {| files := <[u "out/wav/a.wav" := Demo.wav_node]>
                (<[u "out/wav/c.wav" := Demo.wav_node]> ∅);
     trace := [] |}.

Definition a_row : out_row := OutRow (u "wav/a.wav") 64044 (u "hello").

End DemoSets.




Definition pow2 (e : Z) : R := powerRZ 2 e.

Module DemoRows.

(** A directory with two wav files: two seconds, and 4.02 seconds. *)
Definition world : World :=
  {| files := <[u "out/wav/a.wav" := Node false 64044 (Some 32000)]>
                (<[u "out/wav/c.wav" := Node false 128684 (Some 64320)]> ∅);
     trace := [] |}.


End DemoRows.

(** Whatever is in [w] is in [w'], unchanged. *)
Definition keeps_files (w w' : World) : Prop :=
  forall p nd, files w !! p = Some nd -> files w' !! p = Some nd.

(** A computation of the data sets that leaves the world, its files and
    its trace, as it finds it. *)
Definition reads_only {A} (m : M GramVaaniDataSets.state A) : Prop :=
  forall s, (m s).2.1 = s.1.

(** [main], lines 269 to 277: the three stages, run on the parsed manifest
    and the target directory of the command line. *)
Definition main_stages (env : Env) (csv : GramVaaniCSV.t) (directory : pystr)
  : M World unit :=
  let downloader := GramVaaniDownloader.__init__ csv directory in
  bind (GramVaaniDownloader.download env downloader) (fun mp3_directory =>
  let converter := GramVaaniConverter.__init__ directory mp3_directory in
  bind (GramVaaniConverter.convert env converter) (fun wav_directory =>
  let datasets := GramVaaniDataSets.__init__ directory wav_directory csv in
  fun w =>
    let '(r, s) := GramVaaniDataSets.create env (w, datasets) in (r, s.1))).
(** * Properties *)

(** ** Running the string functions *)

Example basename_url : path.basename (u "http://h/a/b.mp3") = u "b.mp3".
Proof. reflexivity. Qed.

Example basename_trailing_slash : path.basename (u "http://h/a/") = u "".
Proof. reflexivity. Qed.

Example splitext_last_dot : path.splitext (u "b.tar.mp3") = (u "b.tar", u ".mp3").
Proof. reflexivity. Qed.

Example splitext_leading_dot : path.splitext (u ".bashrc") = (u ".bashrc", u "").
Proof. reflexivity. Qed.

Example splitext_leading_dots : path.splitext (u "a/..x.y") = (u "a/..x", u ".y").
Proof. reflexivity. Qed.

Example join_plain : path.join (u "out") (u "mp3") = u "out/mp3".
Proof. reflexivity. Qed.

Example join_after_slash : path.join (u "out/") (u "mp3") = u "out/mp3".
Proof. reflexivity. Qed.

Example join_absolute : path.join (u "out") (u "/mp3") = u "/mp3".
Proof. reflexivity. Qed.

Example strip_both_ends : Str.strip (u "  a b ") = u "a b".
Proof. reflexivity. Qed.

(** ** Strings *)

Lemma rfind_from_spec c s : forall i last,
  let r := Str.rfind_from c s i last in
  (r = last /\ c ∉ s) \/
  (i <= r < i + Z.of_nat (length s) /\ c ∉ skipn (Z.to_nat (r - i + 1)) s).
Proof.
  induction s as [|x s IH]; intros i last; simpl.
  - left. split; [reflexivity|]. apply not_elem_of_nil.
  - destruct (N.eqb_spec x c) as [->|Hne].
    + destruct (IH (i + 1) i) as [[Hr Hnot]|[Hr Hnot]].
      * right. rewrite Hr. split; [lia|].
        replace (i - i + 1) with 1 by lia. exact Hnot.
      * right. split; [lia|].
        replace (Z.to_nat (Str.rfind_from c s (i + 1) i - i + 1))
          with (S (Z.to_nat (Str.rfind_from c s (i + 1) i - (i + 1) + 1))) by lia.
        exact Hnot.
    + destruct (IH (i + 1) last) as [[Hr Hnot]|[Hr Hnot]].
      * left. split; [exact Hr|].
        intros Hin. apply elem_of_cons in Hin as [Heq|Hin]; [congruence|tauto].
      * right. split; [lia|].
        replace (Z.to_nat (Str.rfind_from c s (i + 1) last - i + 1))
          with (S (Z.to_nat (Str.rfind_from c s (i + 1) last - (i + 1) + 1))) by lia.
        exact Hnot.
Qed.

(** A basename holds no separator. *)
Lemma basename_no_sep p : path.sep ∉ path.basename p.
Proof.
  unfold path.basename, Str.slice_from, Str.rfind.
  destruct (rfind_from_spec path.sep p 0 (-1)) as [[Hr Hnot]|[Hr Hnot]].
  - rewrite Hr. exact Hnot.
  - replace (Str.rfind_from path.sep p 0 (-1) - 0 + 1)
      with (Str.rfind_from path.sep p 0 (-1) + 1) in Hnot by lia.
    exact Hnot.
Qed.

Lemma startswith1_elem s c : Str.startswith1 s c = true -> c ∈ s.
Proof.
  destruct s as [|x s]; simpl; [discriminate|].
  intros H. apply N.eqb_eq in H. subst. apply elem_of_cons. left. reflexivity.
Qed.

Lemma join_relative a b :
  path.sep ∉ b ->
  path.join a b = a ++ b \/ path.join a b = a ++ path.sep :: b.
Proof.
  intros Hb. unfold path.join.
  destruct (Str.startswith1 b path.sep) eqn:E.
  - apply startswith1_elem in E. contradiction.
  - destruct a as [|x a]; [left; reflexivity|].
    destruct (Str.endswith1 (x :: a) path.sep); [left|right]; reflexivity.
Qed.

(** For a fixed directory, [join] is injective on names without a
    separator. *)
Lemma join_injective a b1 b2 :
  path.sep ∉ b1 -> path.sep ∉ b2 ->
  path.join a b1 = path.join a b2 -> b1 = b2.
Proof.
  intros H1 H2. unfold path.join.
  destruct (Str.startswith1 b1 path.sep) eqn:E1;
    [apply startswith1_elem in E1; contradiction|].
  destruct (Str.startswith1 b2 path.sep) eqn:E2;
    [apply startswith1_elem in E2; contradiction|].
  destruct (match a with [] => true | _ :: _ => Str.endswith1 a path.sep end);
    intros H; apply app_inv_head in H; congruence.
Qed.

(** ** The file system only grows *)

Ltac munfold :=
  unfold mbind, M_bind, bind, mret, M_ret, ret, raise, lift, get, put in *.

Lemma grows_refl w : grows w w.
Proof. intros p H. exact H. Qed.

Lemma grows_trans w1 w2 w3 : grows w1 w2 -> grows w2 w3 -> grows w1 w3.
Proof. intros H12 H23 p H. apply H23, H12, H. Qed.

Lemma present_insert w p nd tr q :
  present {| files := <[p := nd]> (files w); trace := tr |} q <-> q = p \/ present w q.
Proof.
  unfold present. simpl. rewrite lookup_insert_is_Some. split.
  - intros [->|[_ H]]; [left; reflexivity|right; exact H].
  - intros [->|H]; [left; reflexivity|].
    destruct (decide (p = q)); [left; assumption|right; split; assumption].
Qed.

Lemma path_exists_present w p :
  present w p -> os.path_exists p w = (Ok true, w).
Proof.
  unfold present, os.path_exists. munfold. intros [nd ->]. reflexivity.
Qed.

Lemma path_exists_absent w p :
  files w !! p = None -> os.path_exists p w = (Ok false, w).
Proof. unfold os.path_exists. munfold. intros ->. reflexivity. Qed.

Lemma present_dec w p : {present w p} + {files w !! p = None}.
Proof.
  unfold present. destruct (files w !! p) eqn:E; [left; eexists; reflexivity|right; reflexivity].
Qed.

Lemma ensure_dir_present w p : present w p -> ensure_dir p w = (Ok tt, w).
Proof.
  intros H. unfold ensure_dir. munfold. rewrite (path_exists_present _ _ H). reflexivity.
Qed.

Lemma ensure_dir_absent w p :
  files w !! p = None ->
  ensure_dir p w = (Ok tt, {| files := <[p := dir_node]> (files w); trace := trace w |}).
Proof.
  intros H. unfold ensure_dir. munfold. rewrite (path_exists_absent _ _ H). simpl.
  unfold os.mkdir. munfold. rewrite H. reflexivity.
Qed.

Lemma ensure_dir_spec w p :
  exists w', ensure_dir p w = (Ok tt, w') /\ grows w w' /\ present w' p
             /\ trace w' = trace w
             /\ (forall q, present w' q -> q = p \/ present w q).
Proof.
  destruct (present_dec w p) as [H|H].
  - exists w. rewrite (ensure_dir_present _ _ H).
    repeat split; auto using grows_refl.
  - eexists. rewrite (ensure_dir_absent _ _ H). split; [reflexivity|].
    split; [|split; [|split]].
    + intros q Hq. apply present_insert. right. exact Hq.
    + apply present_insert. left. reflexivity.
    + reflexivity.
    + intros q Hq. apply present_insert in Hq. exact Hq.
Qed.

(** ** GramVaaniDownloader *)

Section downloader.
Context (env : Env).
Import GramVaaniDownloader.

Lemma _pre_download_spec self w :
  exists w', _pre_download self w = (Ok (path.join (directory self) (u "mp3")), w')
             /\ grows w w' /\ trace w' = trace w
             /\ present w' (directory self)
             /\ present w' (path.join (directory self) (u "mp3"))
             /\ (forall q, present w' q ->
                   q = directory self \/ q = path.join (directory self) (u "mp3")
                   \/ present w q).
Proof.
  destruct (ensure_dir_spec w (directory self)) as (w1 & E1 & G1 & P1 & T1 & N1).
  destruct (ensure_dir_spec w1 (path.join (directory self) (u "mp3")))
    as (w2 & E2 & G2 & P2 & T2 & N2).
  exists w2. split; [|split; [|split; [|split; [|split]]]].
  - unfold _pre_download. unfold ensure_dir in E1, E2. munfold.
    destruct (os.path_exists (directory self) w) as [[b|e] wa]; [|discriminate].
    destruct ((if negb b then os.mkdir (directory self) else fun s => (Ok (), s)) wa)
      as [[[]|e] wb]; [|discriminate].
    injection E1 as ->.
    destruct (os.path_exists (path.join (directory self) (u "mp3")) w1)
      as [[b'|e] wc]; [|discriminate].
    destruct ((if negb b' then os.mkdir (path.join (directory self) (u "mp3"))
               else fun s => (Ok (), s)) wc) as [[[]|e] wd]; [|discriminate].
    injection E2 as ->. reflexivity.
  - eapply grows_trans; eassumption.
  - congruence.
  - apply G2, P1.
  - exact P2.
  - intros q Hq. destruct (N2 q Hq) as [->|Hq1]; [right; left; reflexivity|].
    destruct (N1 q Hq1) as [->|Hq0]; [left; reflexivity|right; right; exact Hq0].
Qed.

Lemma _pre_download_noop self w :
  present w (directory self) ->
  present w (path.join (directory self) (u "mp3")) ->
  _pre_download self w = (Ok (path.join (directory self) (u "mp3")), w).
Proof.
  intros H1 H2. unfold _pre_download. munfold.
  rewrite (path_exists_present _ _ H1). cbn [negb].
  rewrite (path_exists_present _ _ H2). reflexivity.
Qed.

(** How a row's download goes. *)
Lemma _download_skip self url tr len d w :
  present w (path.join d (path.basename url)) ->
  _download env self url tr len d w = (Ok tt, w).
Proof.
  intros H. unfold _download. munfold. rewrite (path_exists_present _ _ H). reflexivity.
Qed.

Lemma _download_absent self url tr len d w :
  files w !! path.join d (path.basename url) = None ->
  _download env self url tr len d w = urlretrieve env url (path.join d (path.basename url)) w.
Proof.
  intros H. unfold _download. munfold. rewrite (path_exists_absent _ _ H). reflexivity.
Qed.

Lemma _download_fetch self url tr len d w nd :
  files w !! path.join d (path.basename url) = None ->
  remote env url = Fetched nd ->
  _download env self url tr len d w =
    (Ok tt, {| files := <[path.join d (path.basename url) := nd]> (files w);
               trace := trace w ++ [Retrieved url (path.join d (path.basename url))] |}).
Proof.
  intros H R. rewrite (_download_absent _ _ _ _ _ _ H). unfold urlretrieve. rewrite R.
  reflexivity.
Qed.


Lemma _download_ok self url tr len d w w' :
  _download env self url tr len d w = (Ok tt, w') ->
  grows w w' /\ present w' (path.join d (path.basename url)).
Proof.
  destruct (present_dec w (path.join d (path.basename url))) as [H|H].
  - rewrite (_download_skip _ _ _ _ _ _ H). intros [= <-].
    split; [apply grows_refl|exact H].
  - destruct (remote env url) as [nd|e|nd e] eqn:R.
    + rewrite (_download_fetch _ _ _ _ _ _ _ H R). intros [= <-]. split.
      * intros q Hq. apply present_insert. right. exact Hq.
      * apply present_insert. left. reflexivity.
    + rewrite (_download_absent _ _ _ _ _ _ H). unfold urlretrieve. rewrite R. discriminate.
    + rewrite (_download_absent _ _ _ _ _ _ H). unfold urlretrieve. rewrite R. discriminate.
Qed.

(** [_download] touches no file but its own. *)
Lemma _download_elsewhere self url tr len d w p :
  p <> path.join d (path.basename url) ->
  files (_download env self url tr len d w).2 !! p = files w !! p.
Proof.
  intros Hp. destruct (present_dec w (path.join d (path.basename url))) as [H|H].
  - rewrite (_download_skip _ _ _ _ _ _ H). reflexivity.
  - rewrite (_download_absent _ _ _ _ _ _ H). unfold urlretrieve.
    destruct (remote env url) as [nd|e|nd e]; munfold; cbn [snd files];
      try reflexivity; apply lookup_insert_ne; congruence.
Qed.

Lemma download_rows_ok self d rows : forall w l w',
  download_rows env self d rows w = (Ok l, w') ->
  grows w w' /\
  forall row, row ∈ rows -> present w' (path.join d (path.basename (audio_url row))).
Proof.
  induction rows as [|r rows IH]; intros w l w'; unfold download_rows; simpl.
  - munfold. intros [= _ <-]. split; [apply grows_refl|].
    intros row Hin. apply elem_of_nil in Hin. contradiction.
  - munfold.
    destruct (_download env self (audio_url r) (csv_transcript r) (audio_length r) d w)
      as [[[]|e] w1] eqn:E1; [|discriminate].
    fold (download_rows env self d rows).
    destruct (download_rows env self d rows w1) as [[l1|e] w2] eqn:E2; [|discriminate].
    intros [= _ <-].
    apply _download_ok in E1 as [G1 P1].
    apply IH in E2 as [G2 P2].
    split; [eapply grows_trans; eassumption|].
    intros row Hin. apply elem_of_cons in Hin as [->|Hin]; [apply G2, P1|apply P2, Hin].
Qed.

Lemma download_rows_noop self d rows w :
  (forall row, row ∈ rows -> present w (path.join d (path.basename (audio_url row)))) ->
  exists l, download_rows env self d rows w = (Ok l, w).
Proof.
  induction rows as [|r rows IH]; intros H; unfold download_rows; simpl.
  - eexists. reflexivity.
  - munfold. rewrite _download_skip by (apply H, elem_of_cons; left; reflexivity).
    fold (download_rows env self d rows).
    destruct IH as [l ->]; [intros row Hin; apply H, elem_of_cons; right; exact Hin|].
    eexists. reflexivity.
Qed.

Lemma download_unfold self w :
  download env self w =
    match _pre_download self w with
    | (Ok d, w1) =>
        match download_rows env self d (visit_order env (data self)) w1 with
        | (Ok _, w2) => (Ok d, w2)
        | (Raise e, w2) => (Raise e, w2)
        end
    | (Raise e, w1) => (Raise e, w1)
    end.
Proof.
  unfold download, download_rows. munfold.
  destruct (_pre_download self w) as [[d|e] w1]; reflexivity.
Qed.

(** A completed run of [download] leaves a world on which a second run
    changes nothing: no directory is made and no URL is retrieved. *)
Lemma download_twice self w d w1 :
  download env self w = (Ok d, w1) -> download env self w1 = (Ok d, w1).
Proof.
  rewrite download_unfold.
  destruct (_pre_download_spec self w) as (wa & Epre & Ga & _ & Pdir & Pmp3 & _).
  rewrite Epre.
  destruct (download_rows env self _ (visit_order env (data self)) wa)
    as [[l|e] wb] eqn:Erows; [|discriminate].
  intros [= <- <-].
  apply download_rows_ok in Erows as [Gb Prows].
  rewrite download_unfold, _pre_download_noop by (apply Gb; assumption).
  destruct (download_rows_noop self _ (visit_order env (data self)) wb Prows) as [l' ->].
  reflexivity.
Qed.


(** The file of a row is neither of the two directories [download] makes. *)
Lemma mp3_directory_shape dir :
  exists pre, path.join dir (u "mp3") = pre ++ u "mp3"
              /\ (length dir <= length pre)%nat.
Proof.
  destruct (join_relative dir (u "mp3")) as [->| ->].
  - intros Hin. vm_compute in Hin. repeat (apply elem_of_cons in Hin as [Hin|Hin]; [discriminate|]).
    apply elem_of_nil in Hin. exact Hin.
  - exists dir. split; [reflexivity|lia].
  - exists (dir ++ [path.sep]). split; [rewrite <- app_assoc; reflexivity|].
    rewrite length_app. simpl. lia.
Qed.



End downloader.

(** ** GramVaaniConverter *)

Section converter.
Context (env : Env).
Import GramVaaniConverter.

Lemma _pre_convert_spec self w :
  exists w', _pre_convert self w = (Ok (path.join (directory self) (u "wav")), w')
             /\ grows w w' /\ trace w' = trace w
             /\ present w' (directory self)
             /\ present w' (path.join (directory self) (u "wav")).
Proof.
  destruct (ensure_dir_spec w (directory self)) as (w1 & E1 & G1 & P1 & T1 & _).
  destruct (ensure_dir_spec w1 (path.join (directory self) (u "wav")))
    as (w2 & E2 & G2 & P2 & T2 & _).
  exists w2. split; [|split; [|split; [|split]]].
  - unfold _pre_convert. unfold ensure_dir in E1, E2. munfold.
    destruct (os.path_exists (directory self) w) as [[b|e] wa]; [|discriminate].
    destruct ((if negb b then os.mkdir (directory self) else fun s => (Ok (), s)) wa)
      as [[[]|e] wb]; [|discriminate].
    injection E1 as ->.
    destruct (os.path_exists (path.join (directory self) (u "wav")) w1)
      as [[b'|e] wc]; [|discriminate].
    destruct ((if negb b' then os.mkdir (path.join (directory self) (u "wav"))
               else fun s => (Ok (), s)) wc) as [[[]|e] wd]; [|discriminate].
    injection E2 as ->. reflexivity.
  - eapply grows_trans; eassumption.
  - congruence.
  - apply G2, P1.
  - exact P2.
Qed.

Lemma _pre_convert_noop self w :
  present w (directory self) ->
  present w (path.join (directory self) (u "wav")) ->
  _pre_convert self w = (Ok (path.join (directory self) (u "wav")), w).
Proof.
  intros H1 H2. unfold _pre_convert. munfold.
  rewrite (path_exists_present _ _ H1). cbn [negb].
  rewrite (path_exists_present _ _ H2). reflexivity.
Qed.

Lemma convert_one_skip d p w :
  present w (wav_target d p) -> convert_one env d p w = (Ok tt, w).
Proof.
  intros H. unfold convert_one. fold (wav_target d p). munfold.
  rewrite (path_exists_present _ _ H). reflexivity.
Qed.

Lemma convert_one_ok d p w w' :
  convert_one env d p w = (Ok tt, w') ->
  grows w w' /\ present w' (wav_target d p)
  /\ forall q, present w' q -> q = wav_target d p \/ present w q.
Proof.
  destruct (present_dec w (wav_target d p)) as [H|H].
  - rewrite (convert_one_skip _ _ _ H). intros [= <-].
    split; [apply grows_refl|]. split; [exact H|]. intros q Hq. right. exact Hq.
  - unfold convert_one. fold (wav_target d p). munfold.
    rewrite (path_exists_absent _ _ H). cbn [negb]. unfold sox_build.
    destruct (sox_output env p) as [nd|]; [|discriminate]. munfold.
    intros [= <-]. split; [|split].
    + intros q Hq. apply present_insert. right. exact Hq.
    + apply present_insert. left. reflexivity.
    + intros q Hq. apply present_insert in Hq. exact Hq.
Qed.

Lemma convert_loop_ok d l : forall w w',
  for_each (convert_one env d) l w = (Ok tt, w') ->
  grows w w'
  /\ (forall p, p ∈ l -> present w' (wav_target d p))
  /\ (forall q, present w' q -> present w q \/ exists p, q = wav_target d p).
Proof.
  induction l as [|x l IH]; intros w w'; simpl; munfold.
  - intros [= <-]. split; [apply grows_refl|]. split.
    + intros p Hin. apply elem_of_nil in Hin. contradiction.
    + intros q Hq. left. exact Hq.
  - destruct (convert_one env d x w) as [[[]|e] w1] eqn:E1; [|discriminate].
    intros E2. apply convert_one_ok in E1 as (G1 & P1 & N1).
    apply IH in E2 as (G2 & P2 & N2).
    split; [eapply grows_trans; eassumption|]. split.
    + intros p Hin. apply elem_of_cons in Hin as [->|Hin]; [apply G2, P1|apply P2, Hin].
    + intros q Hq. destruct (N2 q Hq) as [Hq1|Hq1]; [|right; exact Hq1].
      destruct (N1 q Hq1) as [->|Hq0]; [right; eexists; reflexivity|left; exact Hq0].
Qed.

Lemma convert_loop_noop d l w :
  (forall p, p ∈ l -> present w (wav_target d p)) ->
  for_each (convert_one env d) l w = (Ok tt, w).
Proof.
  induction l as [|x l IH]; intros H; simpl; munfold; [reflexivity|].
  rewrite convert_one_skip by (apply H, elem_of_cons; left; reflexivity).
  apply IH. intros p Hin. apply H, elem_of_cons. right. exact Hin.
Qed.

Lemma glob_mp3_spec d w :
  exists l, os.glob_mp3 d w = (Ok l, w)
            /\ forall p, p ∈ l <-> present w p /\ is_mp3_below d p = true.
Proof.
  eexists. split; [reflexivity|]. intros p.
  rewrite list_elem_of_In, filter_In, <- list_elem_of_In.
  fold (is_mp3_below d p). unfold present.
  rewrite list_elem_of_fmap. split.
  - intros [([q nd] & -> & Hin) Hm]. split; [|exact Hm].
    apply elem_of_map_to_list in Hin. simpl. eexists. exact Hin.
  - intros [[nd Hnd] Hm]. split; [|exact Hm].
    exists (p, nd). split; [reflexivity|]. apply elem_of_map_to_list. exact Hnd.
Qed.

(** A wav file is never taken for an mp3 file. *)
Lemma wav_target_ends_wav d p : exists pre, wav_target d p = pre ++ u ".wav".
Proof.
  unfold wav_target, path.join.
  set (x := (path.splitext (path.basename p)).1).
  destruct (Str.startswith1 (x ++ u ".wav") path.sep).
  - exists x. reflexivity.
  - destruct (match d with [] => true | _ :: _ => Str.endswith1 d path.sep end).
    + exists (d ++ x). rewrite app_assoc. reflexivity.
    + exists (d ++ path.sep :: x). rewrite <- app_assoc. reflexivity.
Qed.

Lemma wav_target_not_mp3 d d' p : is_mp3_below d' (wav_target d p) = false.
Proof.
  destruct (wav_target_ends_wav d p) as [pre ->].
  unfold is_mp3_below, Str.endswith. rewrite rev_app_distr.
  apply andb_false_intro2. reflexivity.
Qed.

Lemma convert_unfold self w :
  convert env self w =
    match _pre_convert self w with
    | (Ok d, w1) =>
        match os.glob_mp3 (mp3_directory self) w1 with
        | (Ok mp3s, w2) =>
            match for_each (convert_one env d) mp3s w2 with
            | (Ok _, w3) => (Ok d, w3)
            | (Raise e, w3) => (Raise e, w3)
            end
        | (Raise e, w2) => (Raise e, w2)
        end
    | (Raise e, w1) => (Raise e, w1)
    end.
Proof.
  unfold convert. munfold.
  destruct (_pre_convert self w) as [[d|e] w1]; [|reflexivity].
  destruct (os.glob_mp3 (mp3_directory self) w1) as [[l|e] w2]; reflexivity.
Qed.

(** A completed run of [convert] leaves a world on which a second run
    changes nothing: no file is transcoded. *)
Lemma convert_twice self w d w1 :
  convert env self w = (Ok d, w1) -> convert env self w1 = (Ok d, w1).
Proof.
  rewrite convert_unfold.
  destruct (_pre_convert_spec self w) as (wa & Epre & Ga & _ & Pdir & Pwav).
  rewrite Epre.
  destruct (glob_mp3_spec (mp3_directory self) wa) as (l & -> & Hl).
  destruct (for_each (convert_one env _) l wa) as [[[]|e] wb] eqn:Eloop; [|discriminate].
  intros [= <- <-].
  apply convert_loop_ok in Eloop as (Gb & Pb & Nb).
  rewrite convert_unfold, _pre_convert_noop by (apply Gb; assumption).
  destruct (glob_mp3_spec (mp3_directory self) wb) as (l' & -> & Hl').
  rewrite convert_loop_noop; [reflexivity|].
  intros p Hp. apply Hl' in Hp as [Hp Hm]. apply Pb, Hl. split; [|exact Hm].
  destruct (Nb p Hp) as [H|[p0 ->]]; [exact H|].
  rewrite wav_target_not_mp3 in Hm. discriminate.
Qed.

End converter.

(** ** Running the downloader and the converter *)

Example demo_download :
  exists w1,
    GramVaaniDownloader.download Demo.env_ok Demo.downloader Demo.world0
      = (Ok (u "out/mp3"), w1)
    /\ trace w1 = [Retrieved (u "http://h.example/k/a.mp3") (u "out/mp3/a.mp3");
                   Retrieved (u "http://h.example/k/b.mp3") (u "out/mp3/b.mp3");
                   Retrieved (u "http://h.example/k/c.mp3") (u "out/mp3/c.mp3")]
    /\ files w1 !! u "out/mp3/c.mp3" = Some Demo.mp3_node.
Proof. eexists. split; [reflexivity|]. split; vm_compute; reflexivity. Qed.

Example demo_convert :
  let w1 := (GramVaaniDownloader.download Demo.env_ok Demo.downloader Demo.world0).2 in
  exists w2,
    GramVaaniConverter.convert Demo.env_ok Demo.converter w1 = (Ok (u "out/wav"), w2)
    /\ length (trace w2) = 6%nat
    /\ files w2 !! u "out/wav/b.wav" = Some Demo.wav_node.
Proof. eexists. split; [reflexivity|]. split; vm_compute; reflexivity. Qed.

(** ** GramVaaniDataSets: the raw frame *)

Section datasets.
Context (env : Env).
Import GramVaaniDataSets.

Lemma impl_run url tr len w self :
  _convert_csv_data_to_raw_data_impl env url tr len (w, self) =
    match files w !! asset_path (directory self) url with
    | Some nd =>
        (Ok (OutRow (path.join (u "wav")
                       ((path.splitext (path.basename (path.basename url))).1 ++ u ".wav"))
                    (n_size nd)
                    (match validate_label env tr with None => u "" | Some t => t end)),
         (w, self))
    | None => (Raise FileNotFoundError, (w, self))
    end.
Proof.
  unfold _convert_csv_data_to_raw_data_impl, asset_path, in_world, os.getsize, get_self.
  munfold. cbn [fst snd].
  destruct (files w !! _) as [nd|]; reflexivity.
Qed.

(** The row-wise apply of [_convert_csv_data_to_raw_data] reads the file
    system and changes nothing; it raises as soon as a file is absent. *)
Lemma apply_impl_run rows w self :
  (exists out,
      apply_rows (fun arg => _convert_csv_data_to_raw_data_impl env (audio_url arg)
                               (csv_transcript arg) (audio_length arg)) rows (w, self)
      = (Ok out, (w, self))
      /\ length out = length rows
      /\ forall row, row ∈ rows -> present w (asset_path (directory self) (audio_url row)))
  \/ (apply_rows (fun arg => _convert_csv_data_to_raw_data_impl env (audio_url arg)
                               (csv_transcript arg) (audio_length arg)) rows (w, self)
      = (Raise FileNotFoundError, (w, self))
      /\ exists row, row ∈ rows
                     /\ files w !! asset_path (directory self) (audio_url row) = None).
Proof.
  induction rows as [|r rows IH]; simpl; munfold.
  - left. exists []. split; [reflexivity|]. split; [reflexivity|].
    intros row Hin. apply elem_of_nil in Hin. contradiction.
  - rewrite impl_run.
    destruct (files w !! asset_path (directory self) (audio_url r)) as [nd|] eqn:E.
    + destruct IH as [(out & -> & Hlen & Hall)|(-> & row & Hin & Hrow)].
      * left. eexists. split; [reflexivity|]. split; [simpl; congruence|].
        intros row Hin. apply elem_of_cons in Hin as [->|Hin];
          [eexists; exact E|apply Hall, Hin].
      * right. split; [reflexivity|]. exists row. split; [|exact Hrow].
        apply elem_of_cons. right. exact Hin.
    + right. split; [reflexivity|]. exists r. split; [|exact E].
      apply elem_of_cons. left. reflexivity.
Qed.

Lemma convert_raw_missing w self row :
  row ∈ csv_data self ->
  files w !! asset_path (directory self) (audio_url row) = None ->
  _convert_csv_data_to_raw_data env (w, self) = (Raise FileNotFoundError, (w, self)).
Proof.
  intros Hin Hrow. unfold _convert_csv_data_to_raw_data, get_self. munfold. cbn [fst snd].
  destruct (apply_impl_run (csv_data self) w self)
    as [(out & _ & _ & Hall)|(-> & _)]; [|reflexivity].
  destruct (Hall row Hin) as [nd Hnd]. congruence.
Qed.

Lemma create_missing w self row :
  row ∈ csv_data self ->
  files w !! asset_path (directory self) (audio_url row) = None ->
  create env (w, self) = (Raise FileNotFoundError, (w, self)).
Proof.
  intros Hin Hrow. unfold create. munfold.
  rewrite (convert_raw_missing w self row Hin Hrow). reflexivity.
Qed.

(** Line 211 hands whole columns to a function written for one row: the
    [strip] of the first statement is not a method of a Series. *)
Lemma _is_row_invalid_on_columns s (a b c : list pyobj) :
  _is_row_invalid (PSeries a) (PSeries b) (PSeries c) s = (Raise AttributeError, s).
Proof. reflexivity. Qed.

Lemma create_raises s : exists e s', create env s = (Raise e, s').
Proof.
  unfold create. munfold.
  destruct (_convert_csv_data_to_raw_data env s) as [[[]|e] s1]; [|eauto].
  unfold get_self at 1. unfold DataFrame.col_wav_filename, DataFrame.col_wav_filesize,
    DataFrame.col_transcript.
  rewrite _is_row_invalid_on_columns. eauto.
Qed.

End datasets.

(** ** GramVaaniDataSets: what [create] does to the attributes *)

Section partitions.
Context (env : Env).
Import GramVaaniDataSets.

Lemma keeps_ret {A} (a : A) : keeps_partitions (mret a).
Proof. intros s. repeat split. Qed.

Lemma keeps_raise {A} e : keeps_partitions (raise e : M state A).
Proof. intros s. repeat split. Qed.

Lemma keeps_lift {A} (r : result A) : keeps_partitions (lift r).
Proof. intros s. repeat split. Qed.

Lemma keeps_get_self : keeps_partitions get_self.
Proof. intros s. repeat split. Qed.

Lemma keeps_in_world {A} (m : M World A) : keeps_partitions (in_world m).
Proof. intros s. unfold in_world. destruct (m s.1). repeat split. Qed.

Lemma keeps_set_raw fr : keeps_partitions (set_raw fr).
Proof. intros s. repeat split. Qed.

Lemma keeps_set_valid fr : keeps_partitions (set_valid fr).
Proof. intros s. repeat split. Qed.

Lemma keeps_bind {A B} (m : M state A) (k : A -> M state B) :
  keeps_partitions m -> (forall a, keeps_partitions (k a)) ->
  keeps_partitions (m ≫= k).
Proof.
  intros Hm Hk s. specialize (Hm s). munfold.
  destruct (m s) as [[a|e] s1]; [|exact Hm].
  destruct (Hk a s1) as (H1 & H2 & H3). destruct Hm as (G1 & G2 & G3).
  simpl in *. repeat split; congruence.
Qed.

Lemma keeps_apply_rows {A B} (f : A -> M state B) l :
  (forall a, keeps_partitions (f a)) -> keeps_partitions (apply_rows f l).
Proof.
  intros Hf. induction l as [|x l IH]; simpl.
  - apply keeps_ret.
  - apply keeps_bind; [apply Hf|]. intros y.
    apply keeps_bind; [exact IH|]. intros ys. apply keeps_ret.
Qed.

Lemma keeps_for_each {A} (f : A -> M state unit) l :
  (forall a, keeps_partitions (f a)) -> keeps_partitions (for_each f l).
Proof.
  intros Hf. induction l as [|x l IH]; simpl.
  - apply keeps_ret.
  - apply keeps_bind; [apply Hf|]. intros _. exact IH.
Qed.

Create HintDb keeps discriminated.
Hint Resolve keeps_ret keeps_raise keeps_lift keeps_get_self keeps_in_world
  keeps_set_raw keeps_set_valid : keeps.

Ltac keeps :=
  repeat first
    [ apply keeps_bind; [|intros ?]
    | apply keeps_apply_rows; intros ?
    | apply keeps_for_each; intros ?
    | match goal with
      | |- keeps_partitions (if ?b then _ else _) => destruct b
      | |- keeps_partitions (match ?x with _ => _ end) => destruct x
      end
    | solve [auto with keeps] ].

Lemma keeps_impl url tr len :
  keeps_partitions (_convert_csv_data_to_raw_data_impl env url tr len).
Proof. unfold _convert_csv_data_to_raw_data_impl. keeps. Qed.

Lemma keeps_convert_raw : keeps_partitions (_convert_csv_data_to_raw_data env).
Proof. unfold _convert_csv_data_to_raw_data. keeps; try apply keeps_impl. Qed.

Lemma keeps_is_row_invalid a b c : keeps_partitions (_is_row_invalid a b c).
Proof. unfold _is_row_invalid. keeps. Qed.

Lemma keeps_sizes : keeps_partitions _calculate_data_set_sizes.
Proof. unfold _calculate_data_set_sizes. keeps. Qed.

Lemma keeps_slices : keeps_partitions create_slices.
Proof. unfold create_slices. keeps; try apply keeps_sizes. Qed.

Lemma keeps_create : keeps_partitions (create env).
Proof.
  unfold create. keeps;
    auto using keeps_convert_raw, keeps_is_row_invalid, keeps_slices.
Qed.

End partitions.

(** ** GramVaaniDataSets: the slices and the writer *)

Section slices.
Import GramVaaniDataSets.

Lemma sizes_run s :
  _calculate_data_set_sizes s = (sizes_of (DataFrame.len (valid s.2)), s).
Proof.
  unfold _calculate_data_set_sizes, sizes_of, get_self. munfold.
  destruct (Float.int_mul _ DEV_PERCENTAGE) as [x|e]; [|reflexivity].
  destruct (Float.floor x) as [dev_size|e]; [|reflexivity].
  destruct (Float.int_mul _ TRAIN_PERCENTAGE) as [y|e]; [|reflexivity].
  destruct (Float.floor y) as [train_size|e]; reflexivity.
Qed.

Lemma create_slices_run s train_size dev_size test_size :
  sizes_of (DataFrame.len (valid s.2)) = Ok (train_size, dev_size, test_size) ->
  create_slices s =
    (Ok (DataFrame.loc (valid s.2) 0 train_size,
         DataFrame.loc (valid s.2) train_size (train_size + dev_size),
         DataFrame.loc (valid s.2) (train_size + dev_size)
           (train_size + dev_size + test_size)), s).
Proof.
  intros H. unfold create_slices. munfold. rewrite sizes_run, H. reflexivity.
Qed.

Lemma sizes_of_10 : sizes_of 10 = Ok (8, 1, 1).
Proof. vm_compute. reflexivity. Qed.

Lemma sizes_of_1000 : sizes_of 1000 = Ok (800, 100, 100).
Proof. vm_compute. reflexivity. Qed.

Lemma sizes_of_1 : sizes_of 1 = Ok (0, 0, 1).
Proof. vm_compute. reflexivity. Qed.

Lemma len_label_from i rows :
  DataFrame.len (DataFrame.label_from i rows) = Z.of_nat (length rows).
Proof.
  unfold DataFrame.len. f_equal. revert i.
  induction rows as [|r rows IH]; intros i; simpl; [reflexivity|].
  rewrite IH. reflexivity.
Qed.

(** The rows [loc] keeps of a frame labelled [i], [i + 1], ...: those
    whose label lies between the two ends, ends included. *)
Lemma loc_label_from_length rows : forall i a b,
  length (DataFrame.loc (DataFrame.label_from i rows) a b) =
    Z.to_nat (Z.min (b + 1) (i + Z.of_nat (length rows)) - Z.max a i).
Proof.
  unfold DataFrame.loc.
  induction rows as [|r rows IH]; intros i a b;
    cbn [DataFrame.label_from List.filter fst length].
  - lia.
  - destruct (Z.leb_spec a i); destruct (Z.leb_spec i b);
      cbn [andb length]; rewrite IH; lia.
Qed.

(** Whenever a row is left for the test slice, the three slices hold two
    rows more than the frame. *)
Lemma slices_hold_two_more rows train_size dev_size :
  0 <= train_size -> 0 <= dev_size ->
  train_size + dev_size < Z.of_nat (length rows) ->
  let fr := DataFrame.label_from 0 rows in
  let n := Z.of_nat (length rows) in
  (length (DataFrame.loc fr 0 train_size)
   + length (DataFrame.loc fr train_size (train_size + dev_size))
   + length (DataFrame.loc fr (train_size + dev_size)
               (train_size + dev_size + (n - (train_size + dev_size)))))%nat
  = (length rows + 2)%nat.
Proof.
  intros H1 H2 H3 fr n. subst fr n. rewrite !loc_label_from_length. lia.
Qed.

End slices.

Section writer.
Context (env : Env).
Import GramVaaniDataSets.

(** [to_csv] is handed the module [os.path], not [dataset_path]. *)
Lemma _save_raises s name :
  name ∈ [u "train"; u "dev"; u "test"] ->
  _save env name s = (Raise ValueError, s).
Proof.
  intros Hin. destruct s as [w self].
  repeat (apply elem_of_cons in Hin as [->|Hin]; [reflexivity|]).
  apply elem_of_nil in Hin. contradiction.
Qed.

Lemma save_raises s : save env s = (Raise ValueError, s).
Proof.
  unfold save. simpl. munfold.
  rewrite _save_raises by (apply elem_of_cons; left; reflexivity). reflexivity.
Qed.

End writer.

(** ** Binary64 arithmetic: what the rounding does *)

Lemma digits2_pos_bounds p :
  2 ^ (Z.pos (digits2_pos p) - 1) <= Z.pos p < 2 ^ Z.pos (digits2_pos p).
Proof.
  induction p as [p IH|p IH|]; cbn [digits2_pos].
  - rewrite Pos2Z.inj_succ.
    replace (Z.succ (Z.pos (digits2_pos p)) - 1)
      with (Z.succ (Z.pos (digits2_pos p) - 1)) by lia.
    rewrite !Z.pow_succ_r by lia. lia.
  - rewrite Pos2Z.inj_succ.
    replace (Z.succ (Z.pos (digits2_pos p)) - 1)
      with (Z.succ (Z.pos (digits2_pos p) - 1)) by lia.
    rewrite !Z.pow_succ_r by lia. lia.
  - simpl. lia.
Qed.

Lemma Zdigits2_bounds m :
  0 < m -> 2 ^ (Zdigits2 m - 1) <= m < 2 ^ Zdigits2 m.
Proof.
  destruct m as [|p|p]; try lia. intros _. apply digits2_pos_bounds.
Qed.

Lemma Zdigits2_pos m : 0 < m -> 0 < Zdigits2 m.
Proof. destruct m; simpl; lia. Qed.

Lemma Zdigits2_le m d : 0 < m -> m < 2 ^ d -> Zdigits2 m <= d.
Proof.
  intros Hm Hd. destruct (Zdigits2_bounds m Hm) as [Hlo _].
  destruct (Z_le_gt_dec (Zdigits2 m) d) as [H|H]; [exact H|].
  assert (2 ^ d <= 2 ^ (Zdigits2 m - 1)) by (apply Z.pow_le_mono_r; lia). lia.
Qed.

Lemma Zdigits2_ge m d : 0 < m -> 2 ^ (d - 1) <= m -> d <= Zdigits2 m.
Proof.
  intros Hm Hd. destruct (Zdigits2_bounds m Hm) as [_ Hhi].
  destruct (Z_le_gt_dec d (Zdigits2 m)) as [H|H]; [exact H|].
  pose proof (Zdigits2_pos m Hm).
  assert (2 ^ Zdigits2 m <= 2 ^ (d - 1)) by (apply Z.pow_le_mono_r; lia). lia.
Qed.

Lemma Zdigits2_eq m d : 2 ^ (d - 1) <= m < 2 ^ d -> 0 < d -> Zdigits2 m = d.
Proof.
  intros [Hlo Hhi] Hd.
  assert (0 < m) by (pose proof (Z.pow_pos_nonneg 2 (d - 1)); lia).
  pose proof (Zdigits2_le m d). pose proof (Zdigits2_ge m d). lia.
Qed.

(** Shifting a record right. *)
Lemma shr_m_shr_1 r : 0 <= shr_m r -> shr_m (shr_1 r) = shr_m r / 2.
Proof.
  destruct r as [m rb sb]. cbn [shr_m]. intros Hm.
  destruct m as [|[p|p|]|p]; cbn [shr_1 shr_m]; try lia; try reflexivity.
  - apply (Z.div_unique _ 2 _ 1); lia.
  - apply (Z.div_unique _ 2 _ 0); lia.
Qed.

Lemma shr_m_shr_1_nonneg r : 0 <= shr_m r -> 0 <= shr_m (shr_1 r).
Proof. intros H. rewrite shr_m_shr_1 by exact H. apply Z.div_pos; lia. Qed.

Lemma shr_m_iter_pos p : forall r,
  0 <= shr_m r -> shr_m (SpecFloat.iter_pos shr_1 p r) = shr_m r / 2 ^ Z.pos p.
Proof.
  induction p as [p IH|p IH|]; intros r Hr; cbn [SpecFloat.iter_pos].
  - assert (H1 : 0 <= shr_m (shr_1 r)) by (apply shr_m_shr_1_nonneg, Hr).
    assert (H2 : 0 <= shr_m (SpecFloat.iter_pos shr_1 p (shr_1 r)))
      by (rewrite IH by exact H1; apply Z.div_pos; lia).
    rewrite IH by exact H2. rewrite IH by exact H1. rewrite shr_m_shr_1 by exact Hr.
    rewrite !Z.div_div by lia. f_equal.
    rewrite Pos2Z.inj_xI, Z.pow_add_r, Z.pow_mul_r, Z.pow_1_r by lia.
    replace (2 ^ 2) with 4 by reflexivity.
    rewrite (Z.pow_mul_l 2 2). lia.
  - assert (H2 : 0 <= shr_m (SpecFloat.iter_pos shr_1 p r))
      by (rewrite IH by exact Hr; apply Z.div_pos; lia).
    rewrite IH by exact H2. rewrite IH by exact Hr.
    rewrite !Z.div_div by lia. f_equal.
    rewrite Pos2Z.inj_xO. rewrite <- Z.pow_add_r by lia. f_equal. lia.
  - rewrite shr_m_shr_1 by exact Hr. reflexivity.
Qed.

Lemma shr_m_of_loc m l : shr_m (shr_record_of_loc m l) = m.
Proof. destruct l as [|[]]; reflexivity. Qed.

Lemma round_nearest_even_bounds m l :
  m <= round_nearest_even m l <= m + 1.
Proof.
  unfold round_nearest_even. destruct l as [|[]]; try lia.
  destruct (Z.even m); lia.
Qed.

Lemma pow2_pos e : (0 < pow2 e)%R.
Proof. apply powerRZ_lt. lra. Qed.

Lemma pow2_add a b : pow2 (a + b) = (pow2 a * pow2 b)%R.
Proof. apply powerRZ_add. lra. Qed.

Lemma pow2_IZR n : 0 <= n -> pow2 n = IZR (2 ^ n).
Proof.
  intros Hn. unfold pow2. destruct n as [|p|p]; [reflexivity| |lia].
  rewrite <- Zpower_pos_powerRZ. reflexivity.
Qed.


Lemma shr_fexp_normal mx ex lx :
  2 ^ 52 <= mx -> -1074 <= ex ->
  exists r, shr_fexp 53 1024 mx ex lx = (r, ex + (Zdigits2 mx - 53))
            /\ shr_m r = mx / 2 ^ (Zdigits2 mx - 53).
Proof.
  intros Hm He.
  assert (Hd : 53 <= Zdigits2 mx) by (apply Zdigits2_ge; lia).
  unfold shr_fexp, fexp, emin, shr.
  replace (Z.max (Zdigits2 mx + ex - 53) (3 - 1024 - 53) - ex)
    with (Zdigits2 mx - 53) by lia.
  destruct (Zdigits2 mx - 53) as [|p|p] eqn:E; [| |lia].
  - eexists. split; [f_equal; lia|]. rewrite shr_m_of_loc, Z.pow_0_r, Z.div_1_r. reflexivity.
  - eexists. split; [reflexivity|].
    rewrite shr_m_iter_pos by (rewrite shr_m_of_loc; lia).
    rewrite shr_m_of_loc. reflexivity.
Qed.

Lemma binary_round_aux_normal mx ex lx :
  2 ^ 52 <= mx -> -1074 <= ex -> Zdigits2 mx + ex <= 1023 ->
  exists m e m2,
    binary_round_aux 53 1024 false mx ex lx = S754_finite false m e
    /\ 2 ^ 52 <= Z.pos m < 2 ^ 53
    /\ ex + (Zdigits2 mx - 53) <= e <= ex + (Zdigits2 mx - 53) + 1
    /\ mx / 2 ^ (Zdigits2 mx - 53) <= m2 <= mx / 2 ^ (Zdigits2 mx - 53) + 1
    /\ (IZR (Z.pos m) * pow2 e = IZR m2 * pow2 (ex + (Zdigits2 mx - 53)))%R.
Proof.
  intros Hm He Hhi.
  assert (Hd : 53 <= Zdigits2 mx) by (apply Zdigits2_ge; lia).
  destruct (Zdigits2_bounds mx ltac:(lia)) as [Hlo Hup].
  set (n := Zdigits2 mx - 53) in *.
  assert (Hq : 2 ^ 52 <= mx / 2 ^ n < 2 ^ 53).
  { assert (0 < 2 ^ n) by (apply Z.pow_pos_nonneg; lia).
    replace (Zdigits2 mx - 1) with (52 + n) in Hlo by lia.
    replace (Zdigits2 mx) with (53 + n) in Hup by lia.
    rewrite Z.pow_add_r in Hlo, Hup by lia. split.
    - apply Z.div_le_lower_bound; lia.
    - apply Z.div_lt_upper_bound; lia. }
  unfold binary_round_aux.
  destruct (shr_fexp_normal mx ex lx Hm He) as (r & -> & Hr). fold n in Hr |- *.
  pose proof (round_nearest_even_bounds (shr_m r) (loc_of_shr_record r)) as Hrne.
  set (m2 := round_nearest_even (shr_m r) (loc_of_shr_record r)) in *.
  rewrite Hr in Hrne.
  destruct (shr_fexp_normal m2 (ex + n) loc_Exact ltac:(lia) ltac:(lia)) as (r' & -> & Hr').
  assert (Hd2 : Zdigits2 m2 = 53 \/ (Zdigits2 m2 = 54 /\ m2 = 2 ^ 53)).
  { destruct (Z_lt_le_dec m2 (2 ^ 53)) as [Hlt|Hge].
    - left. apply Zdigits2_eq; lia.
    - right. assert (m2 = 2 ^ 53) by lia. split; [|assumption]. subst m2.
      rewrite H. reflexivity. }
  destruct Hd2 as [Hd2|[Hd2 Hm2]].
  - pose proof (Zdigits2_bounds m2 ltac:(lia)) as Hb2. rewrite Hd2 in *.
    replace (53 - 53) with 0 in * by lia. rewrite Z.pow_0_r, Z.div_1_r in Hr'.
    rewrite Hr'. destruct m2 as [|p|p] eqn:Em2; try lia.
    replace (ex + n + 0 <=? 1024 - 53) with true by (symmetry; apply Z.leb_le; lia).
    exists p, (ex + n + 0), (Z.pos p).
    split; [reflexivity|]. split; [lia|]. split; [lia|]. split; [lia|].
    replace (ex + n + 0) with (ex + n) by lia. reflexivity.
  - rewrite Hd2 in *. replace (54 - 53) with 1 in * by lia. rewrite Hm2 in Hr'.
    replace (2 ^ 53 / 2 ^ 1) with (2 ^ 52) in Hr' by reflexivity.
    rewrite Hr'. change (2 ^ 52) with (Z.pos 4503599627370496).
    replace (ex + n + 1 <=? 1024 - 53) with true by (symmetry; apply Z.leb_le; lia).
    exists 4503599627370496%positive, (ex + n + 1), m2.
    split; [reflexivity|]. split; [lia|]. split; [lia|]. split; [lia|].
    rewrite Hm2, pow2_add. replace (pow2 1) with 2%R by (unfold pow2; simpl; lra).
    change (2 ^ 53) with (2 * 4503599627370496). rewrite mult_IZR. lra.
Qed.

(** One rounding moves a value of the normal range by at most one part
    in [2^52]. *)
Lemma binary_round_aux_error mx ex lx (v : R) :
  2 ^ 52 <= mx -> -1074 <= ex -> Zdigits2 mx + ex <= 1023 ->
  (IZR mx * pow2 ex <= v <= IZR (mx + 1) * pow2 ex)%R ->
  exists m e,
    binary_round_aux 53 1024 false mx ex lx = S754_finite false m e
    /\ 2 ^ 52 <= Z.pos m < 2 ^ 53
    /\ ex + (Zdigits2 mx - 53) <= e <= ex + (Zdigits2 mx - 53) + 1
    /\ (v * (1 - / 4503599627370496) <= IZR (Z.pos m) * pow2 e
        <= v * (1 + / 4503599627370496))%R.
Proof.
  intros Hm He Hhi Hv.
  destruct (binary_round_aux_normal mx ex lx Hm He Hhi)
    as (m & e & m2 & Heq & Hmant & Hexp & Hm2 & Hval).
  exists m, e. split; [exact Heq|]. split; [exact Hmant|]. split; [exact Hexp|].
  rewrite Hval. clear Heq Hval Hmant Hexp.
  assert (Hd : 53 <= Zdigits2 mx) by (apply Zdigits2_ge; lia).
  destruct (Zdigits2_bounds mx ltac:(lia)) as [Hlo Hup].
  set (n := Zdigits2 mx - 53) in *.
  assert (Hn : 0 <= n) by lia.
  assert (H2n : 0 < 2 ^ n) by (apply Z.pow_pos_nonneg; lia).
  set (q := mx / 2 ^ n) in *.
  assert (Hq : 2 ^ 52 <= q).
  { replace (Zdigits2 mx - 1) with (52 + n) in Hlo by lia.
    rewrite Z.pow_add_r in Hlo by lia. apply Z.div_le_lower_bound; lia. }
  assert (Hq1 : q * 2 ^ n <= mx) by (unfold q; rewrite Z.mul_comm; apply Z.mul_div_le; lia).
  assert (Hq2 : mx + 1 <= (q + 1) * 2 ^ n).
  { pose proof (Z.mul_succ_div_gt mx (2 ^ n) H2n). fold q in H. lia. }
  rewrite pow2_add, (pow2_IZR n) by lia.
  apply IZR_le in Hq1, Hq2, Hq. destruct Hm2 as [Hm2a Hm2b].
  apply IZR_le in Hm2a, Hm2b. rewrite mult_IZR in Hq1, Hq2.
  rewrite !plus_IZR in Hq2. rewrite plus_IZR in Hm2b. rewrite plus_IZR in Hv.
  change (IZR (2 ^ 52)) with 4503599627370496%R in Hq.
  pose proof (pow2_pos ex) as Hp. apply IZR_lt in H2n.
  set (T := IZR (2 ^ n)) in *. set (A := pow2 ex) in *.
  set (Q := IZR q) in *. set (X := IZR mx) in *. set (Y := IZR m2) in *.
  assert (HB : (0 < T * A)%R) by (apply Rmult_lt_0_compat; lra).
  assert (E1 : (Q * T * A <= X * A)%R) by (apply Rmult_le_compat_r; lra).
  assert (E2 : ((X + 1) * A <= (Q + 1) * T * A)%R) by (apply Rmult_le_compat_r; lra).
  assert (E3 : (Q * (T * A) <= Y * (T * A))%R) by (apply Rmult_le_compat_r; lra).
  assert (E4 : (Y * (T * A) <= (Q + 1) * (T * A))%R) by (apply Rmult_le_compat_r; lra).
  assert (E5 : (4503599627370496 * (T * A) <= Q * (T * A))%R)
    by (apply Rmult_le_compat_r; lra).
  replace (Y * (A * T))%R with (Y * (T * A))%R by ring.
  set (B := (T * A)%R) in *.
  replace (Q * T * A)%R with (Q * B)%R in E1 by (unfold B; ring).
  replace ((Q + 1) * T * A)%R with (Q * B + B)%R in E2 by (unfold B; ring).
  replace ((Q + 1) * B)%R with (Q * B + B)%R in E4 by ring.
  set (QB := (Q * B)%R) in *. set (YB := (Y * B)%R) in *.
  split; lra.
Qed.



Lemma pow2_neg n : 0 <= n -> pow2 (- n) = (/ IZR (2 ^ n))%R.
Proof.
  intros Hn.
  assert (H : (pow2 (- n) * pow2 n = 1)%R).
  { rewrite <- pow2_add. replace (- n + n) with 0 by lia. reflexivity. }
  rewrite (pow2_IZR n Hn) in H.
  assert (0 < IZR (2 ^ n))%R by (apply IZR_lt, Z.pow_pos_nonneg; lia).
  apply Rmult_eq_reg_r with (IZR (2 ^ n)); [|lra].
  rewrite H. field. lra.
Qed.

(** The product of two positive finite numbers. *)
Lemma SFmul_pos m1 e1 m2 e2 :
  2 ^ 52 <= Z.pos (m1 * m2) -> -1074 <= e1 + e2 ->
  Zdigits2 (Z.pos (m1 * m2)) + (e1 + e2) <= 1023 ->
  exists m e,
    SFmul 53 1024 (S754_finite false m1 e1) (S754_finite false m2 e2)
      = S754_finite false m e
    /\ 2 ^ 52 <= Z.pos m < 2 ^ 53
    /\ e1 + e2 + (Zdigits2 (Z.pos (m1 * m2)) - 53) <= e
       <= e1 + e2 + (Zdigits2 (Z.pos (m1 * m2)) - 53) + 1
    /\ (IZR (Z.pos m1) * pow2 e1 * (IZR (Z.pos m2) * pow2 e2) * (1 - / 4503599627370496)
        <= IZR (Z.pos m) * pow2 e
        <= IZR (Z.pos m1) * pow2 e1 * (IZR (Z.pos m2) * pow2 e2) * (1 + / 4503599627370496))%R.
Proof.
  intros Hm He Hhi. cbn [SFmul xorb].
  apply binary_round_aux_error; try assumption.
  rewrite Pos2Z.inj_mul, plus_IZR, mult_IZR, pow2_add.
  pose proof (pow2_pos e1). pose proof (pow2_pos e2).
  assert (0 < pow2 e1 * pow2 e2)%R by (apply Rmult_lt_0_compat; assumption).
  split; [right; ring|]. nra.
Qed.

(** [floor_pos m e] is the integer part of [m * 2^e]. *)
Lemma floor_pos_bounds m e :
  (IZR (Float.floor_pos m e) <= IZR (Z.pos m) * pow2 e < IZR (Float.floor_pos m e) + 1)%R.
Proof.
  unfold Float.floor_pos. destruct (Z.leb_spec 0 e) as [He|He].
  - rewrite Z.shiftl_mul_pow2, mult_IZR, <- pow2_IZR by lia. lra.
  - rewrite Z.shiftr_div_pow2 by lia.
    replace e with (- (- e)) at 2 3 by lia. rewrite pow2_neg by lia.
    assert (H2 : 0 < 2 ^ (- e)) by (apply Z.pow_pos_nonneg; lia).
    pose proof (Z.mul_div_le (Z.pos m) (2 ^ (- e)) H2) as H3.
    pose proof (Z.mul_succ_div_gt (Z.pos m) (2 ^ (- e)) H2) as H4.
    set (q := Z.pos m / 2 ^ (- e)) in *.
    assert (H5 : Z.pos m + 1 <= 2 ^ (- e) * (q + 1)) by lia.
    apply IZR_le in H3, H5. apply IZR_lt in H2.
    rewrite mult_IZR in H3, H5. rewrite !plus_IZR in H5.
    set (T := IZR (2 ^ (- e))) in *. set (X := IZR (Z.pos m)) in *.
    assert (Hinv : (0 < / T)%R) by (apply Rinv_0_lt_compat; lra).
    assert (E1 : (T * IZR q * / T <= X * / T)%R) by (apply Rmult_le_compat_r; lra).
    assert (E2 : ((X + 1) * / T <= T * (IZR q + 1) * / T)%R)
      by (apply Rmult_le_compat_r; lra).
    replace (T * IZR q * / T)%R with (IZR q) in E1 by (field; lra).
    replace (T * (IZR q + 1) * / T)%R with (IZR q + 1)%R in E2 by (field; lra).
    nra.
Qed.
















Section row_validity.
Import GramVaaniDataSets.


(** ** GramVaaniDataSets: the validity of one row *)

Lemma _is_row_invalid_blank wf sz t s :
  Str.strip t = [] ->
  _is_row_invalid (PStr wf) sz (PStr t) s = (Ok true, s).
Proof.
  intros H. unfold _is_row_invalid, get_self. munfold. cbn [attr_strip].
  rewrite H. reflexivity.
Qed.


(** A file that cannot be probed: the row is neither kept nor excluded,
    [check_output] raises. *)
Lemma _is_row_invalid_unprobed wf sz t w self :
  Str.strip t <> [] ->
  files w !! path.join (directory self) wf = None ->
  _is_row_invalid (PStr wf) sz (PStr t) (w, self) = (Raise CalledProcessError, (w, self)).
Proof.
  intros Ht Hnd. unfold _is_row_invalid, get_self, in_world, soxi_s. munfold.
  cbn [attr_strip join_obj len_str].
  rewrite bool_decide_eq_false_2 by exact Ht. cbn [fst snd].
  rewrite Hnd. reflexivity.
Qed.

End row_validity.

(** * The specification, claim by claim *)

Import GramVaaniDataSets.

(** C1. [create] is to split the valid rows into three disjoint slices
    that cover them.  On a frame of ten rows the slices of lines 214 to 216
    are the rows 0 to 8, the rows 8 and 9, and the row 9: [loc] includes
    the end of a label slice, so rows 8 and 9 are each in two slices and the
    slices hold twelve rows. *)
Theorem create_slices_overlap_on_ten_rows
    (w : World) (self : t) (r0 r1 r2 r3 r4 r5 r6 r7 r8 r9 : out_row) :
  create_slices
    (w, with_valid self (DataFrame.label_from 0 [r0; r1; r2; r3; r4; r5; r6; r7; r8; r9]))
  = (Ok ([(0, r0); (1, r1); (2, r2); (3, r3); (4, r4); (5, r5); (6, r6); (7, r7); (8, r8)],
         [(8, r8); (9, r9)],
         [(9, r9)]),
     (w, with_valid self (DataFrame.label_from 0 [r0; r1; r2; r3; r4; r5; r6; r7; r8; r9]))).
Proof.
  rewrite (create_slices_run _ 8 1 1) by exact sizes_of_10. reflexivity.
Qed.




(** C3. A second run of [download] after a completed one, and a second
    run of [convert] after a completed one, return the same directory and
    leave the world as it is: the trace gains no retrieval and no
    transcoding, and no file changes. *)
Theorem fetch_and_transcode_are_idempotent
    (env : Env) (dl : GramVaaniDownloader.t) (cv : GramVaaniConverter.t)
    (w w1 v v1 : World) (d d' : pystr) :
  GramVaaniDownloader.download env dl w = (Ok d, w1) ->
  GramVaaniConverter.convert env cv v = (Ok d', v1) ->
  GramVaaniDownloader.download env dl w1 = (Ok d, w1)
  /\ GramVaaniConverter.convert env cv v1 = (Ok d', v1).
Proof.
  intros Hd Hc. split; [eapply download_twice|eapply convert_twice]; eassumption.
Qed.

Lemma fetch_and_transcode_are_idempotent_witness :
  GramVaaniDownloader.download Demo.env_ok Demo.downloader
    (GramVaaniDownloader.download Demo.env_ok Demo.downloader Demo.world0).2
  = (Ok (u "out/mp3"),
     (GramVaaniDownloader.download Demo.env_ok Demo.downloader Demo.world0).2)
  /\ GramVaaniConverter.convert Demo.env_ok Demo.converter
       (GramVaaniConverter.convert Demo.env_ok Demo.converter
          (GramVaaniDownloader.download Demo.env_ok Demo.downloader Demo.world0).2).2
     = (Ok (u "out/wav"),
        (GramVaaniConverter.convert Demo.env_ok Demo.converter
           (GramVaaniDownloader.download Demo.env_ok Demo.downloader Demo.world0).2).2).
Proof.
  apply (fetch_and_transcode_are_idempotent Demo.env_ok Demo.downloader Demo.converter
           Demo.world0 _
           (GramVaaniDownloader.download Demo.env_ok Demo.downloader Demo.world0).2 _
           (u "out/mp3") (u "out/wav")); vm_compute; reflexivity.
Defined.




(** C5, as the specification has it, fails: with the wav file of the
    second of three rows absent, [create] raises FileNotFoundError and
    assigns neither [raw] nor [valid]. *)
Lemma missing_asset_stops_create :
  create Demo.env_ok (DemoSets.world_without_b, DemoSets.datasets)
  = (Raise FileNotFoundError, (DemoSets.world_without_b, DemoSets.datasets)).
Proof. vm_compute. reflexivity. Qed.

(** C5, amended.  For a manifest row whose wav file is absent,
    [path.getsize] raises FileNotFoundError; nothing catches it: [create]
    raises it and leaves the world and the attributes as they were. *)
Theorem missing_asset_raises
    (env : Env) (w : World) (self : t) (row : csv_row) :
  row ∈ csv_data self ->
  files w !! asset_path (directory self) (audio_url row) = None ->
  create env (w, self) = (Raise FileNotFoundError, (w, self)).
Proof. apply create_missing. Qed.

Lemma missing_asset_raises_witness :
  create Demo.env_ok (DemoSets.world_without_b, DemoSets.datasets)
  = (Raise FileNotFoundError, (DemoSets.world_without_b, DemoSets.datasets)).
Proof.
  apply (missing_asset_raises Demo.env_ok DemoSets.world_without_b DemoSets.datasets
           Demo.row_b).
  - vm_compute. apply elem_of_cons. right. apply elem_of_cons. left. reflexivity.
  - vm_compute. reflexivity.
Defined.

(** C6. For 1000 valid rows [_calculate_data_set_sizes] returns 800, 100
    and 100, and the slices [create] cuts with them hold 801, 101 and 100
    rows: the same inclusive end as in C1. *)
Theorem slices_of_1000_rows (w : World) (self : t) (rows : list out_row) :
  length rows = 1000%nat ->
  exists train dev test,
    create_slices (w, with_valid self (DataFrame.label_from 0 rows))
    = (Ok (train, dev, test), (w, with_valid self (DataFrame.label_from 0 rows)))
    /\ length train = 801%nat /\ length dev = 101%nat /\ length test = 100%nat.
Proof.
  intros Hlen. do 3 eexists. split.
  - apply create_slices_run. cbn [valid with_valid snd].
    rewrite len_label_from, Hlen. exact sizes_of_1000.
  - cbn [valid with_valid snd]. rewrite !loc_label_from_length, Hlen. lia.
Qed.

Lemma slices_of_1000_rows_witness :
  exists train dev test,
    create_slices
      (Demo.world0,
       with_valid DemoSets.datasets
         (DataFrame.label_from 0 (repeat DemoSets.a_row 1000)))
    = (Ok (train, dev, test),
       (Demo.world0,
        with_valid DemoSets.datasets
          (DataFrame.label_from 0 (repeat DemoSets.a_row 1000))))
    /\ length train = 801%nat /\ length dev = 101%nat /\ length test = 100%nat.
Proof.
  apply (slices_of_1000_rows Demo.world0 DemoSets.datasets (repeat DemoSets.a_row 1000)).
  vm_compute. reflexivity.
Defined.

(** C7. [_save] is to write the frame to target_dir/<name>.csv.  For each
    of train, dev and test it raises ValueError instead and writes nothing:
    [to_csv] is called with [path], the module [os.path], and not with
    [dataset_path]. *)
Theorem _save_writes_no_file (env : Env) (w : World) (self : t) :
  _save env (u "train") (w, self) = (Raise ValueError, (w, self))
  /\ _save env (u "dev") (w, self) = (Raise ValueError, (w, self))
  /\ _save env (u "test") (w, self) = (Raise ValueError, (w, self)).
Proof. repeat split. Qed.

(** C8. There is no manifest to read back: [save] raises ValueError at the
    first partition, and every path, target_dir/<name>.csv among them,
    holds after [save] what it held before. *)
Theorem save_leaves_nothing_to_read_back (env : Env) (w : World) (self : t) (p : pystr) :
  (save env (w, self)).1 = Raise ValueError
  /\ files (save env (w, self)).2.1 !! p = files w !! p.
Proof. rewrite save_raises. split; reflexivity. Qed.

(** C9, as the specification has it, fails: two distinct rows whose URLs
    end in the same name are downloaded to the same file. *)
Lemma distinct_rows_share_a_file :
  Demo.row_a <> Demo.row_a'
  /\ path.join (u "out/mp3") (path.basename (audio_url Demo.row_a))
     = path.join (u "out/mp3") (path.basename (audio_url Demo.row_a')).
Proof. split; [discriminate|reflexivity]. Qed.

(** C9, amended.  For two rows whose URLs have distinct basenames, the
    filenames [_download] derives are distinct, and the download of either
    row leaves the file of the other as it is: the two never write to the
    same file. *)
Theorem distinct_basenames_distinct_files
    (env : Env) (self : GramVaaniDownloader.t) (mp3_directory : pystr)
    (r1 r2 : csv_row) (w : World) :
  path.basename (audio_url r1) <> path.basename (audio_url r2) ->
  path.join mp3_directory (path.basename (audio_url r1))
    <> path.join mp3_directory (path.basename (audio_url r2))
  /\ files (GramVaaniDownloader._download env self (audio_url r1) (csv_transcript r1)
              (audio_length r1) mp3_directory w).2
       !! path.join mp3_directory (path.basename (audio_url r2))
     = files w !! path.join mp3_directory (path.basename (audio_url r2))
  /\ files (GramVaaniDownloader._download env self (audio_url r2) (csv_transcript r2)
              (audio_length r2) mp3_directory w).2
       !! path.join mp3_directory (path.basename (audio_url r1))
     = files w !! path.join mp3_directory (path.basename (audio_url r1)).
Proof.
  intros Hne.
  assert (Hp : path.join mp3_directory (path.basename (audio_url r1))
               <> path.join mp3_directory (path.basename (audio_url r2))).
  { intros Heq. apply Hne.
    eapply join_injective; [apply basename_no_sep|apply basename_no_sep|exact Heq]. }
  split; [exact Hp|]. split; apply _download_elsewhere; congruence.
Qed.

Lemma distinct_basenames_distinct_files_witness :
  path.join (u "out/mp3") (path.basename (audio_url Demo.row_a))
    <> path.join (u "out/mp3") (path.basename (audio_url Demo.row_b))
  /\ files (GramVaaniDownloader._download Demo.env_ok Demo.downloader
              (audio_url Demo.row_a) (csv_transcript Demo.row_a)
              (audio_length Demo.row_a) (u "out/mp3") Demo.world0).2
       !! path.join (u "out/mp3") (path.basename (audio_url Demo.row_b))
     = files Demo.world0 !! path.join (u "out/mp3") (path.basename (audio_url Demo.row_b))
  /\ files (GramVaaniDownloader._download Demo.env_ok Demo.downloader
              (audio_url Demo.row_b) (csv_transcript Demo.row_b)
              (audio_length Demo.row_b) (u "out/mp3") Demo.world0).2
       !! path.join (u "out/mp3") (path.basename (audio_url Demo.row_a))
     = files Demo.world0 !! path.join (u "out/mp3") (path.basename (audio_url Demo.row_a)).
Proof.
  apply (distinct_basenames_distinct_files Demo.env_ok Demo.downloader (u "out/mp3")
           Demo.row_a Demo.row_b Demo.world0).
  vm_compute. discriminate.
Defined.

(** C10. [create] assigns its slices to local names only: in the state it
    leaves, whether it returns or raises, [train], [dev] and [test] are what
    they were before, and after [__init__] that is the empty frame. *)
Theorem create_leaves_partitions_empty
    (env : Env) (w : World) (self : t) (directory wav_directory : pystr)
    (gram_vaani_csv : GramVaaniCSV.t) :
  (train (create env (w, self)).2.2 = train self
   /\ dev (create env (w, self)).2.2 = dev self
   /\ test (create env (w, self)).2.2 = test self)
  /\ (train (create env (w, __init__ directory wav_directory gram_vaani_csv)).2.2
        = DataFrame.empty
      /\ dev (create env (w, __init__ directory wav_directory gram_vaani_csv)).2.2
         = DataFrame.empty
      /\ test (create env (w, __init__ directory wav_directory gram_vaani_csv)).2.2
         = DataFrame.empty).
Proof.
  split; [apply (keeps_create env (w, self))|].
  apply (keeps_create env (w, __init__ directory wav_directory gram_vaani_csv)).
Qed.

(** * Further properties of the importer *)

(** ** Existing files are never overwritten *)

Lemma keeps_files_refl w : keeps_files w w.
Proof. intros p nd H. exact H. Qed.

Lemma keeps_files_trans w1 w2 w3 :
  keeps_files w1 w2 -> keeps_files w2 w3 -> keeps_files w1 w3.
Proof. intros H12 H23 p nd H. apply H23, H12, H. Qed.

Lemma keeps_files_insert w p nd tr :
  files w !! p = None ->
  keeps_files w {| files := <[p := nd]> (files w); trace := tr |}.
Proof.
  intros Habs q nq Hq. cbn [files]. rewrite lookup_insert_ne; [exact Hq|congruence].
Qed.

Lemma ensure_dir_keeps w p : keeps_files w (ensure_dir p w).2.
Proof.
  destruct (present_dec w p) as [H|H].
  - rewrite (ensure_dir_present _ _ H). apply keeps_files_refl.
  - rewrite (ensure_dir_absent _ _ H). apply keeps_files_insert, H.
Qed.

Section downloads_keep.
Context (env : Env).
Import GramVaaniDownloader.

Lemma _pre_download_keeps self w : keeps_files w (_pre_download self w).2.
Proof.
  pose proof (ensure_dir_keeps w (directory self)) as K1.
  unfold _pre_download. unfold ensure_dir in K1. munfold.
  destruct (os.path_exists (directory self) w) as [[b|e] wa]; [|exact K1].
  destruct ((if negb b then os.mkdir (directory self) else fun s => (Ok (), s)) wa)
    as [[[]|e] w1]; [|exact K1].
  cbn [snd] in K1.
  pose proof (ensure_dir_keeps w1 (path.join (directory self) (u "mp3"))) as K2.
  unfold ensure_dir in K2. munfold.
  destruct (os.path_exists (path.join (directory self) (u "mp3")) w1) as [[b'|e] wc];
    [|eapply keeps_files_trans; eassumption].
  destruct ((if negb b' then os.mkdir (path.join (directory self) (u "mp3"))
             else fun s => (Ok (), s)) wc) as [[[]|e] wd];
    eapply keeps_files_trans; eassumption.
Qed.

Lemma _download_keeps self url tr len d w :
  keeps_files w (_download env self url tr len d w).2.
Proof.
  destruct (present_dec w (path.join d (path.basename url))) as [H|H].
  - rewrite (_download_skip _ _ _ _ _ _ _ H). apply keeps_files_refl.
  - rewrite (_download_absent _ _ _ _ _ _ _ H). unfold urlretrieve.
    destruct (remote env url) as [nd|e|nd e]; munfold; cbn [snd];
      try apply keeps_files_refl; apply keeps_files_insert, H.
Qed.

Lemma download_rows_keeps self d rows : forall w,
  keeps_files w (download_rows env self d rows w).2.
Proof.
  induction rows as [|r rows IH]; intros w; unfold download_rows; simpl; munfold.
  - apply keeps_files_refl.
  - pose proof (_download_keeps self (audio_url r) (csv_transcript r) (audio_length r) d w)
      as K.
    destruct (_download env self (audio_url r) (csv_transcript r) (audio_length r) d w)
      as [[[]|e] w1]; [|exact K].
    fold (download_rows env self d rows). specialize (IH w1).
    destruct (download_rows env self d rows w1) as [[l|e] w2];
      eapply keeps_files_trans; eassumption.
Qed.

Lemma download_keeps self w : keeps_files w (download env self w).2.
Proof.
  rewrite download_unfold. pose proof (_pre_download_keeps self w) as K.
  destruct (_pre_download self w) as [[d|e] w1]; [|exact K].
  pose proof (download_rows_keeps self d (visit_order env (data self)) w1) as K2.
  destruct (download_rows env self d (visit_order env (data self)) w1) as [[l|e] w2];
    eapply keeps_files_trans; eassumption.
Qed.

End downloads_keep.

(** ** The stages agree on the file names *)

Lemma rfind_from_absent c s : forall i last,
  c ∉ s -> Str.rfind_from c s i last = last.
Proof.
  induction s as [|x s IH]; intros i last Hc; simpl; [reflexivity|].
  apply not_elem_of_cons in Hc as [Hx Hs].
  destruct (N.eqb_spec x c) as [->|_]; [contradiction|]. apply IH, Hs.
Qed.

Lemma rfind_from_last c a b : forall i last,
  c ∉ b -> Str.rfind_from c (a ++ c :: b) i last = i + Z.of_nat (length a).
Proof.
  induction a as [|x a IH]; intros i last Hc; simpl.
  - rewrite N.eqb_refl. rewrite rfind_from_absent by exact Hc. lia.
  - rewrite IH by exact Hc. lia.
Qed.

(** The name after the last separator. *)
Lemma basename_after_sep a b :
  path.sep ∉ b -> path.basename (a ++ path.sep :: b) = b.
Proof.
  intros Hb. unfold path.basename, Str.rfind, Str.slice_from.
  rewrite rfind_from_last by exact Hb.
  replace (Z.to_nat (0 + Z.of_nat (length a) + 1)) with (length (a ++ [path.sep]))
    by (rewrite length_app; simpl; lia).
  replace (a ++ path.sep :: b) with ((a ++ [path.sep]) ++ b)
    by (rewrite <- app_assoc; reflexivity).
  apply drop_app_length.
Qed.

Lemma basename_of_name b : path.sep ∉ b -> path.basename b = b.
Proof.
  intros Hb. unfold path.basename, Str.rfind, Str.slice_from.
  rewrite rfind_from_absent by exact Hb. reflexivity.
Qed.

(** A name that is not empty and does not end in a separator, joined with a
    name without separators. *)
Lemma join_names a b :
  a <> [] -> Str.endswith1 a path.sep = false -> path.sep ∉ b ->
  path.join a b = a ++ path.sep :: b.
Proof.
  intros Ha He Hb. unfold path.join.
  destruct (Str.startswith1 b path.sep) eqn:E;
    [apply startswith1_elem in E; contradiction|].
  destruct a as [|x a]; [contradiction|]. rewrite He. reflexivity.
Qed.

Lemma endswith1_app a b c :
  b <> [] -> Str.endswith1 (a ++ b) c = Str.endswith1 b c.
Proof.
  intros Hb. unfold Str.endswith1. rewrite rev_app_distr.
  destruct (rev b) as [|x r] eqn:E; [|reflexivity].
  apply (f_equal (@rev N)) in E. rewrite rev_involutive in E. contradiction.
Qed.

(** The root [splitext] returns is a prefix of its argument. *)
Lemma splitext_root_prefix p : exists ext, p = (path.splitext p).1 ++ ext.
Proof.
  unfold path.splitext.
  destruct (Str.rfind path.sep p <? Str.rfind path.extsep p);
    [|exists []; rewrite app_nil_r; reflexivity].
  generalize (Str.rfind path.sep p + 1) as i. generalize (S (length p)) as fuel.
  induction fuel as [|fuel IH]; intros i; simpl.
  - exists []. rewrite app_nil_r. reflexivity.
  - destruct (i <? Str.rfind path.extsep p); [|exists []; rewrite app_nil_r; reflexivity].
    destruct (negb _); [|apply IH].
    exists (Str.slice_from p (Str.rfind path.extsep p)). cbn [fst].
    unfold Str.slice_to, Str.slice_from. symmetry. apply firstn_skipn.
Qed.

Lemma splitext_root_no_sep b : path.sep ∉ b -> path.sep ∉ (path.splitext b).1.
Proof.
  intros Hb Hin. destruct (splitext_root_prefix b) as [ext Heq].
  apply Hb. rewrite Heq. apply elem_of_app. left. exact Hin.
Qed.

(** The wav file [_convert_csv_data_to_raw_data_impl] looks for is the wav
    file [convert] builds from the mp3 file [_download] stores. *)
Lemma asset_path_is_wav_target dir url :
  asset_path dir url
  = wav_target (path.join dir (u "wav"))
      (path.join (path.join dir (u "mp3")) (path.basename url)).
Proof.
  pose proof (basename_no_sep url) as Hb.
  unfold asset_path, wav_target.
  rewrite (basename_of_name _ Hb).
  destruct (mp3_directory_shape dir) as (pre & Hmp3 & _).
  assert (Hj : path.join (path.join dir (u "mp3")) (path.basename url)
               = path.join dir (u "mp3") ++ path.sep :: path.basename url).
  { apply join_names; [| |exact Hb].
    - rewrite Hmp3. intros H. apply (f_equal length) in H.
      rewrite length_app in H. simpl in H. lia.
    - rewrite Hmp3. rewrite endswith1_app by discriminate. reflexivity. }
  rewrite Hj, (basename_after_sep _ _ Hb).
  set (y := (path.splitext (path.basename url)).1 ++ u ".wav").
  assert (Hy : path.sep ∉ y).
  { unfold y. intros Hin. apply elem_of_app in Hin as [Hin|Hin].
    - exact (splitext_root_no_sep _ Hb Hin).
    - vm_compute in Hin.
      repeat (apply elem_of_cons in Hin as [Hin|Hin]; [discriminate|]).
      apply elem_of_nil in Hin. exact Hin. }
  rewrite (join_names (u "wav") y) by (try discriminate; try reflexivity; exact Hy).
  assert (Hw : path.sep ∉ u "wav").
  { intros Hin. vm_compute in Hin.
    repeat (apply elem_of_cons in Hin as [Hin|Hin]; [discriminate|]).
    apply elem_of_nil in Hin. exact Hin. }
  assert (Hwy : path.sep ∉ u "wav" ++ path.sep :: y -> False) by
    (intros H; apply H; apply elem_of_app; right; apply elem_of_cons; left; reflexivity).
  unfold path.join at 1. cbn [Str.startswith1 app u]. 
  change (Str.startswith1 (u "wav" ++ path.sep :: y) path.sep) with false.
  destruct (join_relative dir (u "wav") Hw) as [Hd|Hd]; rewrite Hd.
  - assert (He : match dir with [] => true | _ :: _ => Str.endswith1 dir path.sep end = true).
    { unfold path.join in Hd. change (Str.startswith1 (u "wav") path.sep) with false in Hd.
      destruct (match dir with [] => true | _ :: _ => Str.endswith1 dir path.sep end);
        [reflexivity|].
      apply app_inv_head in Hd. discriminate. }
    rewrite He.
    rewrite (join_names (dir ++ u "wav") y);
      [rewrite <- app_assoc; reflexivity| | |exact Hy].
    + intros H. apply (f_equal length) in H. rewrite length_app in H. simpl in H. lia.
    + rewrite endswith1_app by discriminate. reflexivity.
  - assert (He : match dir with [] => true | _ :: _ => Str.endswith1 dir path.sep end = false).
    { unfold path.join in Hd. change (Str.startswith1 (u "wav") path.sep) with false in Hd.
      destruct (match dir with [] => true | _ :: _ => Str.endswith1 dir path.sep end);
        [|reflexivity].
      apply app_inv_head in Hd. discriminate. }
    rewrite He.
    rewrite (join_names (dir ++ path.sep :: u "wav") y);
      [rewrite <- app_assoc; reflexivity| | |exact Hy].
    + intros H. apply (f_equal length) in H. rewrite length_app in H. simpl in H. lia.
    + replace (dir ++ path.sep :: u "wav") with ((dir ++ [path.sep]) ++ u "wav")
        by (rewrite <- app_assoc; reflexivity).
      rewrite endswith1_app by discriminate. reflexivity.
Qed.

Lemma startswith_app s p x :
  Str.startswith s p = true -> Str.startswith (s ++ x) p = true.
Proof.
  revert s. induction p as [|c p IH]; intros s H; [destruct (s ++ x); reflexivity|].
  destruct s as [|y s]; [discriminate|]. simpl in *.
  apply andb_true_iff in H as [H1 H2]. rewrite H1. apply IH, H2.
Qed.

Lemma startswith_prefix p x : Str.startswith (p ++ x) p = true.
Proof.
  induction p as [|c p IH]; [destruct x; reflexivity|].
  simpl. rewrite N.eqb_refl. exact IH.
Qed.

Lemma endswith_app a b s :
  Str.endswith b s = true -> Str.endswith (a ++ b) s = true.
Proof.
  unfold Str.endswith. intros H. rewrite rev_app_distr. apply startswith_app, H.
Qed.

Section pipeline.
Context (env : Env).

(** After [download] and [convert] have completed, the wav file of every
    visited row whose URL ends in .mp3 is there for
    [_convert_csv_data_to_raw_data_impl] to find. *)
Lemma pipeline_assets_present dl w d w1 wd w2 row :
  GramVaaniDownloader.download env dl w = (Ok d, w1) ->
  GramVaaniConverter.convert env
    (GramVaaniConverter.__init__ (GramVaaniDownloader.directory dl) d) w1 = (Ok wd, w2) ->
  row ∈ visit_order env (GramVaaniDownloader.data dl) ->
  Str.endswith (path.basename (audio_url row)) (u ".mp3") = true ->
  present w2 (asset_path (GramVaaniDownloader.directory dl) (audio_url row)).
Proof.
  intros Hdl Hcv Hrow Hmp3.
  rewrite download_unfold in Hdl.
  destruct (_pre_download_spec dl w) as (wa & Epre & _). rewrite Epre in Hdl.
  destruct (download_rows env dl _ (visit_order env (GramVaaniDownloader.data dl)) wa)
    as [[l|e] wb] eqn:Erows; [|discriminate].
  injection Hdl as <- <-.
  apply download_rows_ok in Erows as [_ Prows]. specialize (Prows row Hrow).
  rewrite convert_unfold in Hcv. cbn [GramVaaniConverter.__init__] in Hcv.
  destruct (_pre_convert_spec
              {| GramVaaniConverter.directory := GramVaaniDownloader.directory dl;
                 GramVaaniConverter.mp3_directory :=
                   path.join (GramVaaniDownloader.directory dl) (u "mp3") |} wb)
    as (wc & Epc & Gc & _).
  unfold GramVaaniConverter.__init__ in Hcv. rewrite Epc in Hcv.
  cbn [GramVaaniConverter.directory GramVaaniConverter.mp3_directory] in Hcv.
  destruct (glob_mp3_spec (path.join (GramVaaniDownloader.directory dl) (u "mp3")) wc)
    as (mp3s & Eg & Hmem).
  rewrite Eg in Hcv.
  destruct (for_each (GramVaaniConverter.convert_one env _) mp3s wc)
    as [[[]|e] wd'] eqn:Eloop; [|discriminate].
  injection Hcv as <- <-.
  apply convert_loop_ok in Eloop as (_ & Ploop & _).
  rewrite asset_path_is_wav_target. apply Ploop, Hmem. split; [apply Gc, Prows|].
  pose proof (basename_no_sep (audio_url row)) as Hb.
  destruct (mp3_directory_shape (GramVaaniDownloader.directory dl)) as (pre & Hshape & _).
  assert (Hne : path.join (GramVaaniDownloader.directory dl) (u "mp3") <> []).
  { rewrite Hshape. intros H. apply (f_equal length) in H.
    rewrite length_app in H. simpl in H. lia. }
  assert (Hend : Str.endswith1 (path.join (GramVaaniDownloader.directory dl) (u "mp3"))
                   path.sep = false).
  { rewrite Hshape. rewrite endswith1_app by discriminate. reflexivity. }
  rewrite (join_names _ _ Hne Hend Hb).
  unfold is_mp3_below. apply andb_true_iff. split.
  - replace (path.join (GramVaaniDownloader.directory dl) (u "mp3")
             ++ path.sep :: path.basename (audio_url row))
      with ((path.join (GramVaaniDownloader.directory dl) (u "mp3") ++ [path.sep])
            ++ path.basename (audio_url row))
      by (rewrite <- app_assoc; reflexivity).
    apply startswith_prefix.
  - replace (path.join (GramVaaniDownloader.directory dl) (u "mp3")
             ++ path.sep :: path.basename (audio_url row))
      with ((path.join (GramVaaniDownloader.directory dl) (u "mp3") ++ [path.sep])
            ++ path.basename (audio_url row))
      by (rewrite <- app_assoc; reflexivity).
    apply endswith_app, Hmp3.
Qed.

End pipeline.

(** ** Properties read off the code *)

(** X1. [create] never returns: either the raw conversion raises, or line
    211 does, where whole columns are handed to [_is_row_invalid] and the
    [strip] of its first statement is no method of a column. *)
Theorem create_never_returns (env : Env) (s : state) :
  exists e s', create env s = (Raise e, s').
Proof. apply create_raises. Qed.

(** X2. For a transcript that is not blank, [_is_row_invalid] probes the
    file; when the file is absent the probe raises CalledProcessError: the
    row is neither kept nor excluded. *)
Theorem unprobed_row_raises
    (w : World) (self : t) (wav_filename : pystr) (wav_filesize : pyobj)
    (transcript : pystr) :
  Str.strip transcript <> [] ->
  files w !! path.join (directory self) wav_filename = None ->
  _is_row_invalid (PStr wav_filename) wav_filesize (PStr transcript) (w, self)
  = (Raise CalledProcessError, (w, self)).
Proof. apply _is_row_invalid_unprobed. Qed.

Lemma unprobed_row_raises_witness :
  _is_row_invalid (PStr (u "wav/b.wav")) (PInt 0) (PStr (u "hello"))
    (DemoRows.world, DemoSets.datasets)
  = (Raise CalledProcessError, (DemoRows.world, DemoSets.datasets)).
Proof.
  apply (unprobed_row_raises DemoRows.world DemoSets.datasets (u "wav/b.wav") (PInt 0)
           (u "hello")).
  - vm_compute. discriminate.
  - vm_compute. reflexivity.
Defined.

(** X3. [download] never overwrites: whatever file or directory is there
    before is there, unchanged, after, whether [download] returns or
    raises and in whatever order the rows are visited. *)
Theorem download_never_overwrites
    (env : Env) (self : GramVaaniDownloader.t) (w : World) (p : pystr) (nd : node) :
  files w !! p = Some nd ->
  files (GramVaaniDownloader.download env self w).2 !! p = Some nd.
Proof. apply download_keeps. Qed.

Lemma download_never_overwrites_witness :
  files (GramVaaniDownloader.download Demo.env_ok Demo.downloader
           {| files := <[u "out/mp3/a.mp3" := Node false 7 None]> ∅; trace := [] |}).2
    !! u "out/mp3/a.mp3" = Some (Node false 7 None).
Proof.
  apply (download_never_overwrites Demo.env_ok Demo.downloader
           {| files := <[u "out/mp3/a.mp3" := Node false 7 None]> ∅; trace := [] |}
           (u "out/mp3/a.mp3") (Node false 7 None)).
  vm_compute. reflexivity.
Defined.

(** X4. When two rows have the same basename and the first is fetched, the
    second finds the file and is skipped: its URL is not retrieved and the
    first row's audio stays. *)
Theorem same_basename_second_row_skipped
    (env : Env) (self : GramVaaniDownloader.t) (mp3_directory : pystr)
    (r1 r2 : csv_row) (w : World) (nd : node) :
  path.basename (audio_url r1) = path.basename (audio_url r2) ->
  files w !! path.join mp3_directory (path.basename (audio_url r1)) = None ->
  remote env (audio_url r1) = Fetched nd ->
  exists w1,
    GramVaaniDownloader._download env self (audio_url r1) (csv_transcript r1)
      (audio_length r1) mp3_directory w = (Ok tt, w1)
    /\ files w1 !! path.join mp3_directory (path.basename (audio_url r2)) = Some nd
    /\ GramVaaniDownloader._download env self (audio_url r2) (csv_transcript r2)
         (audio_length r2) mp3_directory w1 = (Ok tt, w1).
Proof.
  intros Hb Habs Hre. eexists. split; [apply _download_fetch; eassumption|].
  rewrite <- Hb. split.
  - cbn [files]. apply lookup_insert_eq.
  - apply _download_skip. rewrite <- Hb. apply present_insert. left. reflexivity.
Qed.

Lemma same_basename_second_row_skipped_witness :
  exists w1,
    GramVaaniDownloader._download Demo.env_ok Demo.downloader (audio_url Demo.row_a)
      (csv_transcript Demo.row_a) (audio_length Demo.row_a) (u "out/mp3") Demo.world0
    = (Ok tt, w1)
    /\ files w1 !! path.join (u "out/mp3") (path.basename (audio_url Demo.row_a'))
       = Some Demo.mp3_node
    /\ GramVaaniDownloader._download Demo.env_ok Demo.downloader (audio_url Demo.row_a')
         (csv_transcript Demo.row_a') (audio_length Demo.row_a') (u "out/mp3") w1
       = (Ok tt, w1).
Proof.
  apply (same_basename_second_row_skipped Demo.env_ok Demo.downloader (u "out/mp3")
           Demo.row_a Demo.row_a' Demo.world0 Demo.mp3_node).
  - vm_compute. reflexivity.
  - vm_compute. reflexivity.
  - reflexivity.
Defined.

(** X5. The stages agree on the file names: after [download] and [convert]
    have completed, for every visited row whose URL ends in .mp3 the size
    lookup of [_convert_csv_data_to_raw_data_impl] finds its wav file and
    the row is returned, with the relative name wav/<stem>.wav. *)
Theorem converted_rows_are_found
    (env : Env) (dl : GramVaaniDownloader.t) (self : t) (w w1 w2 : World)
    (d wd : pystr) (row : csv_row) :
  GramVaaniDownloader.download env dl w = (Ok d, w1) ->
  GramVaaniConverter.convert env
    (GramVaaniConverter.__init__ (GramVaaniDownloader.directory dl) d) w1 = (Ok wd, w2) ->
  directory self = GramVaaniDownloader.directory dl ->
  row ∈ visit_order env (GramVaaniDownloader.data dl) ->
  Str.endswith (path.basename (audio_url row)) (u ".mp3") = true ->
  exists out,
    _convert_csv_data_to_raw_data_impl env (audio_url row) (csv_transcript row)
      (audio_length row) (w2, self) = (Ok out, (w2, self))
    /\ wav_filename out
       = path.join (u "wav")
           ((path.splitext (path.basename (audio_url row))).1 ++ u ".wav").
Proof.
  intros Hdl Hcv Hdir Hrow Hmp3.
  destruct (pipeline_assets_present env dl w d w1 wd w2 row Hdl Hcv Hrow Hmp3) as [nd Hnd].
  rewrite impl_run, Hdir, Hnd. eexists. split; [reflexivity|]. cbn [wav_filename].
  rewrite (basename_of_name _ (basename_no_sep _)). reflexivity.
Qed.

Lemma converted_rows_are_found_witness :
  exists out,
    _convert_csv_data_to_raw_data_impl Demo.env_ok (audio_url Demo.row_c)
      (csv_transcript Demo.row_c) (audio_length Demo.row_c)
      ((GramVaaniConverter.convert Demo.env_ok Demo.converter
          (GramVaaniDownloader.download Demo.env_ok Demo.downloader Demo.world0).2).2,
       DemoSets.datasets)
    = (Ok out,
       ((GramVaaniConverter.convert Demo.env_ok Demo.converter
           (GramVaaniDownloader.download Demo.env_ok Demo.downloader Demo.world0).2).2,
        DemoSets.datasets))
    /\ wav_filename out
       = path.join (u "wav")
           ((path.splitext (path.basename (audio_url Demo.row_c))).1 ++ u ".wav").
Proof.
  apply (converted_rows_are_found Demo.env_ok Demo.downloader DemoSets.datasets
           Demo.world0
           (GramVaaniDownloader.download Demo.env_ok Demo.downloader Demo.world0).2
           (GramVaaniConverter.convert Demo.env_ok Demo.converter
              (GramVaaniDownloader.download Demo.env_ok Demo.downloader Demo.world0).2).2
           (u "out/mp3") (u "out/wav") Demo.row_c).
  - vm_compute. reflexivity.
  - vm_compute. reflexivity.
  - reflexivity.
  - apply (bool_decide_unpack _). vm_compute. exact I.
  - vm_compute. reflexivity.
Defined.

(** X6. A row whose label [validate_label] rejects gets the empty
    transcript, and [_is_row_invalid] on its three fields answers True
    without probing the file. *)
Theorem rejected_label_is_invalid
    (env : Env) (w : World) (self : t) (row : csv_row) (nd : node) :
  validate_label env (csv_transcript row) = None ->
  files w !! asset_path (directory self) (audio_url row) = Some nd ->
  exists out,
    _convert_csv_data_to_raw_data_impl env (audio_url row) (csv_transcript row)
      (audio_length row) (w, self) = (Ok out, (w, self))
    /\ transcript out = u ""
    /\ _is_row_invalid (PStr (wav_filename out)) (PInt (wav_filesize out))
         (PStr (transcript out)) (w, self) = (Ok true, (w, self)).
Proof.
  intros Hlabel Hnd. rewrite impl_run, Hnd, Hlabel. eexists.
  split; [reflexivity|]. split; [reflexivity|].
  apply _is_row_invalid_blank. reflexivity.
Qed.

Lemma rejected_label_is_invalid_witness :
  exists out,
    _convert_csv_data_to_raw_data_impl
      {| remote := remote Demo.env_ok; visit_order := visit_order Demo.env_ok;
         sox_output := sox_output Demo.env_ok; validate_label := fun _ => None;
         sample_frac1 := sample_frac1 Demo.env_ok; csv_file := csv_file Demo.env_ok |}
      (audio_url Demo.row_a) (csv_transcript Demo.row_a) (audio_length Demo.row_a)
      (DemoRows.world, DemoSets.datasets) = (Ok out, (DemoRows.world, DemoSets.datasets))
    /\ transcript out = u ""
    /\ _is_row_invalid (PStr (wav_filename out)) (PInt (wav_filesize out))
         (PStr (transcript out)) (DemoRows.world, DemoSets.datasets)
       = (Ok true, (DemoRows.world, DemoSets.datasets)).
Proof.
  apply (rejected_label_is_invalid
           {| remote := remote Demo.env_ok; visit_order := visit_order Demo.env_ok;
              sox_output := sox_output Demo.env_ok; validate_label := fun _ => None;
              sample_frac1 := sample_frac1 Demo.env_ok; csv_file := csv_file Demo.env_ok |}
           DemoRows.world DemoSets.datasets Demo.row_a (Node false 64044 (Some 32000))).
  - reflexivity.
  - vm_compute. reflexivity.
Defined.

(** ** The sizes of the three sets *)

Lemma pos_iter_xO p k : Z.pos (Pos.iter xO p k) = Z.pos p * 2 ^ Z.pos k.
Proof.
  induction k as [|k IH] using Pos.peano_ind.
  - simpl. lia.
  - rewrite Pos.iter_succ, Pos2Z.inj_xO, IH, Pos2Z.inj_succ, Z.pow_succ_r by lia. lia.
Qed.

(** A mantissa of 53 digits with nothing left over is not rounded. *)
Lemma binary_round_aux_exact m e :
  2 ^ 52 <= Z.pos m < 2 ^ 53 -> -1074 <= e <= 971 ->
  binary_round_aux 53 1024 false (Z.pos m) e loc_Exact = S754_finite false m e.
Proof.
  intros Hm He.
  assert (Hd : Zdigits2 (Z.pos m) = 53) by (apply Zdigits2_eq; lia).
  assert (Hs : shr_fexp 53 1024 (Z.pos m) e loc_Exact
               = ({| shr_m := Z.pos m; shr_r := false; shr_s := false |}, e)).
  { unfold shr_fexp, fexp, emin. rewrite Hd.
    replace (Z.max (53 + e - 53) (3 - 1024 - 53) - e) with 0 by lia. reflexivity. }
  unfold binary_round_aux. rewrite Hs. cbn [shr_m loc_of_shr_record round_nearest_even].
  rewrite Hs. cbn [shr_m].
  replace (e <=? 1024 - 53) with true by (symmetry; apply Z.leb_le; lia). reflexivity.
Qed.

(** [float(n)] for a positive [n] below 2^53 is [n]. *)
Lemma of_int_exact n :
  1 <= n < 2 ^ 53 ->
  exists m e,
    Float.of_int n = Ok (S754_finite false m e)
    /\ 2 ^ 52 <= Z.pos m < 2 ^ 53 /\ -52 <= e <= 0
    /\ (IZR (Z.pos m) * pow2 e = IZR n)%R.
Proof.
  intros Hn. destruct n as [|p|p]; try lia.
  pose proof (Zdigits2_bounds (Z.pos p) ltac:(lia)) as [Hlo Hup].
  assert (Hd : 1 <= Zdigits2 (Z.pos p) <= 53).
  { split; [pose proof (Zdigits2_pos (Z.pos p)); lia|apply Zdigits2_le; lia]. }
  unfold Float.of_int, Float.prec, Float.emax. cbn [binary_normalize].
  unfold binary_round, shl_align, fexp, emin.
  change (Z.pos (digits2_pos p)) with (Zdigits2 (Z.pos p)).
  replace (Z.max (Zdigits2 (Z.pos p) + 0 - 53) (3 - 1024 - 53) - 0)
    with (Zdigits2 (Z.pos p) - 53) by lia.
  replace (Z.max (Zdigits2 (Z.pos p) + 0 - 53) (3 - 1024 - 53))
    with (Zdigits2 (Z.pos p) - 53) by lia.
  destruct (Zdigits2 (Z.pos p) - 53) as [|k|k] eqn:Ek; [|lia|].
  - assert (Hd53 : Zdigits2 (Z.pos p) = 53) by lia. rewrite Hd53 in Hlo.
    rewrite binary_round_aux_exact by first [lia|split; [exact Hlo|lia]].
    exists p, 0. split; [reflexivity|]. split; [split; [exact Hlo|lia]|]. split; [lia|].
    unfold pow2. simpl. lra.
  - assert (Hk : Z.pos k = 53 - Zdigits2 (Z.pos p)) by lia.
    assert (Hmz : 2 ^ 52 <= Z.pos (Pos.iter xO p k) < 2 ^ 53).
    { rewrite pos_iter_xO. 
      assert (E1 : 2 ^ 52 = 2 ^ (Zdigits2 (Z.pos p) - 1) * 2 ^ Z.pos k)
        by (rewrite <- Z.pow_add_r by lia; f_equal; lia).
      assert (E2 : 2 ^ 53 = 2 ^ Zdigits2 (Z.pos p) * 2 ^ Z.pos k)
        by (rewrite <- Z.pow_add_r by lia; f_equal; lia).
      assert (0 < 2 ^ Z.pos k) by (apply Z.pow_pos_nonneg; lia).
      rewrite E1, E2. split; [apply Z.mul_le_mono_nonneg_r; lia
                             |apply Z.mul_lt_mono_pos_r; lia]. }
    rewrite binary_round_aux_exact by first [exact Hmz|lia].
    exists (Pos.iter xO p k), (Z.neg k). split; [reflexivity|]. split; [exact Hmz|].
    split; [lia|].
    rewrite pos_iter_xO, mult_IZR.
    replace (pow2 (Z.neg k)) with (/ IZR (2 ^ Z.pos k))%R
      by (symmetry; apply (pow2_neg (Z.pos k)); lia).
    assert (0 < IZR (2 ^ Z.pos k))%R by (apply IZR_lt, Z.pow_pos_nonneg; lia).
    field. lra.
Qed.

(** [math.floor(n * c)] for a positive [n] below 2^53 and a double [c] of
    the normal range: one rounding and a floor. *)
Lemma int_mul_floor n mc ec :
  1 <= n < 2 ^ 53 -> 2 ^ 52 <= Z.pos mc < 2 ^ 53 -> -900 <= ec <= 900 ->
  exists y k x,
    Float.int_mul n (S754_finite false mc ec) = Ok y
    /\ Float.floor y = Ok k
    /\ (IZR k <= x < IZR k + 1)%R
    /\ (IZR n * (IZR (Z.pos mc) * pow2 ec) * (1 - / 4503599627370496) <= x
        <= IZR n * (IZR (Z.pos mc) * pow2 ec) * (1 + / 4503599627370496))%R.
Proof.
  intros Hn Hmc Hec.
  destruct (of_int_exact n Hn) as (m & e & Eq & Hm & He & Hv).
  unfold Float.int_mul. rewrite Eq. unfold Float.prec, Float.emax.
  assert (Hprod : 2 ^ 104 <= Z.pos (m * mc) < 2 ^ 106).
  { rewrite Pos2Z.inj_mul. change (2 ^ 104) with (2 ^ 52 * 2 ^ 52).
    change (2 ^ 106) with (2 ^ 53 * 2 ^ 53). nia. }
  assert (Hdp : 105 <= Zdigits2 (Z.pos (m * mc)) <= 106).
  { split; [apply Zdigits2_ge|apply Zdigits2_le]; lia. }
  destruct (SFmul_pos m e mc ec) as (m' & e' & Eq' & Hm' & He' & Hv'); [lia|lia|lia|].
  rewrite Eq'. exists (S754_finite false m' e'), (Float.floor_pos m' e'),
    (IZR (Z.pos m') * pow2 e')%R.
  split; [reflexivity|]. split; [reflexivity|]. split; [apply floor_pos_bounds|].
  rewrite Hv in Hv'. exact Hv'.
Qed.

Lemma dev_percentage_value :
  (IZR 7205759403792794 * pow2 (-56) = 7205759403792794 / 72057594037927936)%R.
Proof.
  replace (pow2 (-56)) with (/ IZR (2 ^ 56))%R by (symmetry; apply (pow2_neg 56); lia).
  change (IZR (2 ^ 56)) with 72057594037927936%R. reflexivity.
Qed.

Lemma train_percentage_value :
  (IZR 7205759403792794 * pow2 (-53) = 7205759403792794 / 9007199254740992)%R.
Proof.
  replace (pow2 (-53)) with (/ IZR (2 ^ 53))%R by (symmetry; apply (pow2_neg 53); lia).
  change (IZR (2 ^ 53)) with 9007199254740992%R. reflexivity.
Qed.

(** The sizes [_calculate_data_set_sizes] returns for a total below 2^49:
    the train and the dev size are the exact shares [4n/5] and [n/10], or
    one less, and not negative; the test size takes the rest. *)
Lemma sizes_of_bounds n :
  1 <= n < 2 ^ 49 ->
  exists train_size dev_size,
    sizes_of n = Ok (train_size, dev_size, n - (train_size + dev_size))
    /\ 0 <= train_size /\ 0 <= dev_size
    /\ 4 * n / 5 - 1 <= train_size <= 4 * n / 5
    /\ n / 10 - 1 <= dev_size <= n / 10.
Proof.
  intros Hn.
  destruct (int_mul_floor n 7205759403792794 (-56))
    as (y1 & ds & x1 & E1 & F1 & [Hd1 Hd2] & [Hx1 Hx2]); [lia|lia|lia|].
  destruct (int_mul_floor n 7205759403792794 (-53))
    as (y2 & ts & x2 & E2 & F2 & [Ht1 Ht2] & [Hy1 Hy2]); [lia|lia|lia|].
  exists ts, ds. unfold sizes_of, DEV_PERCENTAGE, TRAIN_PERCENTAGE.
  rewrite E1, F1, E2, F2. split; [reflexivity|].
  rewrite dev_percentage_value in Hx1, Hx2.
  rewrite train_percentage_value in Hy1, Hy2.
  pose proof (Z.div_mod n 10 ltac:(lia)) as Hq. pose proof (Z.mod_pos_bound n 10 ltac:(lia)) as Hr.
  pose proof (Z.div_mod (4 * n) 5 ltac:(lia)) as Hq'.
  pose proof (Z.mod_pos_bound (4 * n) 5 ltac:(lia)) as Hr'.
  set (q := n / 10) in *. set (r := n mod 10) in *.
  set (q' := 4 * n / 5) in *. set (r' := (4 * n) mod 5) in *.
  assert (HN : IZR n = (10 * IZR q + IZR r)%R)
    by (rewrite Hq at 1; rewrite plus_IZR, mult_IZR; reflexivity).
  assert (HN' : (4 * IZR n = 5 * IZR q' + IZR r')%R).
  { replace (4 * IZR n)%R with (IZR (4 * n)) by (rewrite mult_IZR; reflexivity).
    rewrite Hq' at 1. rewrite plus_IZR, mult_IZR. reflexivity. }
  assert (Hn49 : (IZR n <= 562949953421312)%R) by (apply IZR_le; lia).
  assert (Hn1 : (1 <= IZR n)%R) by (apply IZR_le; lia).
  assert (Hr0 : (0 <= IZR r <= 9)%R) by (split; apply IZR_le; lia).
  assert (Hr0' : (0 <= IZR r' <= 4)%R) by (split; apply IZR_le; lia).
  assert (A1 : (IZR ts < IZR (q' + 1))%R) by (rewrite plus_IZR; lra).
  assert (A2 : (IZR (q' - 2) < IZR ts)%R) by (rewrite minus_IZR; lra).
  assert (A3 : (IZR ds < IZR (q + 1))%R) by (rewrite plus_IZR; lra).
  assert (A4 : (IZR (q - 2) < IZR ds)%R) by (rewrite minus_IZR; lra).
  assert (A5 : (IZR (-1) < IZR ts)%R) by lra.
  assert (A6 : (IZR (-1) < IZR ds)%R) by lra.
  apply lt_IZR in A1, A2, A3, A4, A5, A6. lia.
Qed.

(** X7. For every frame of valid rows, one row or more (and fewer than
    2^49), [create_slices] returns three slices that hold two rows more
    than the frame: the train slice has one row more than its size, which
    is [4n/5] or one less, the dev slice one row more than its size, which
    is [n/10] or one less, and the test slice takes the rest. *)
Theorem slices_hold_two_rows_too_many
    (w : World) (self : GramVaaniDataSets.t) (rows : list out_row) :
  1 <= Z.of_nat (length rows) < 2 ^ 49 ->
  exists train dev test,
    GramVaaniDataSets.create_slices
      (w, with_valid self (DataFrame.label_from 0 rows))
    = (Ok (train, dev, test), (w, with_valid self (DataFrame.label_from 0 rows)))
    /\ (length train + length dev + length test = length rows + 2)%nat
    /\ 4 * Z.of_nat (length rows) / 5
         <= Z.of_nat (length train) <= 4 * Z.of_nat (length rows) / 5 + 1
    /\ Z.of_nat (length rows) / 10
         <= Z.of_nat (length dev) <= Z.of_nat (length rows) / 10 + 1.
Proof.
  intros Hn.
  destruct (sizes_of_bounds _ Hn) as (ts & ds & Hs & Hts & Hds & Ht & Hd).
  do 3 eexists. split.
  - apply create_slices_run. cbn [GramVaaniDataSets.valid with_valid snd].
    rewrite len_label_from. exact Hs.
  - cbn [GramVaaniDataSets.valid with_valid snd].
    rewrite !loc_label_from_length.
    set (n := Z.of_nat (length rows)) in *.
    assert (Hq : 4 * n / 5 + n / 10 < n).
    { pose proof (Z.div_mod (4 * n) 5 ltac:(lia)).
      pose proof (Z.mod_pos_bound (4 * n) 5 ltac:(lia)).
      pose proof (Z.div_mod n 10 ltac:(lia)).
      pose proof (Z.mod_pos_bound n 10 ltac:(lia)). lia. }
    assert (H0 : 0 <= 4 * n / 5) by (apply Z.div_pos; lia).
    assert (H1 : 0 <= n / 10) by (apply Z.div_pos; lia).
    generalize dependent (4 * n / 5). generalize dependent (n / 10).
    intros d Hd Hd0 t Ht Hq Ht0.
    replace (length rows) with (Z.to_nat n) by (subst n; apply Nat2Z.id).
    assert (Hn0 : 0 <= n) by (subst n; lia). clearbody n. clear Hn Hs.
    replace (Z.min (ts + 1) (0 + n) - Z.max 0 0) with (ts + 1) by lia.
    replace (Z.min (ts + ds + 1) (0 + n) - Z.max ts 0) with (ds + 1) by lia.
    replace (Z.min (ts + ds + (n - (ts + ds)) + 1) (0 + n) - Z.max (ts + ds) 0)
      with (n - (ts + ds)) by lia.
    lia.
Qed.

Lemma slices_hold_two_rows_too_many_witness :
  exists train dev test,
    GramVaaniDataSets.create_slices
      (Demo.world0,
       with_valid DemoSets.datasets
         (DataFrame.label_from 0 (repeat DemoSets.a_row 7)))
    = (Ok (train, dev, test),
       (Demo.world0,
        with_valid DemoSets.datasets
          (DataFrame.label_from 0 (repeat DemoSets.a_row 7))))
    /\ (length train + length dev + length test
        = length (repeat DemoSets.a_row 7) + 2)%nat
    /\ 4 * Z.of_nat (length (repeat DemoSets.a_row 7)) / 5
         <= Z.of_nat (length train)
         <= 4 * Z.of_nat (length (repeat DemoSets.a_row 7)) / 5 + 1
    /\ Z.of_nat (length (repeat DemoSets.a_row 7)) / 10
         <= Z.of_nat (length dev)
         <= Z.of_nat (length (repeat DemoSets.a_row 7)) / 10 + 1.
Proof.
  apply (slices_hold_two_rows_too_many Demo.world0 DemoSets.datasets
           (repeat DemoSets.a_row 7)).
  vm_compute. split; [intros H; discriminate H|reflexivity].
Defined.

(** ** The converter keeps what is there *)

Section converts_keep.
Context (env : Env).
Import GramVaaniConverter.

Lemma _pre_convert_keeps self w : keeps_files w (_pre_convert self w).2.
Proof.
  pose proof (ensure_dir_keeps w (directory self)) as K1.
  unfold _pre_convert. unfold ensure_dir in K1. munfold.
  destruct (os.path_exists (directory self) w) as [[b|e] wa]; [|exact K1].
  destruct ((if negb b then os.mkdir (directory self) else fun s => (Ok (), s)) wa)
    as [[[]|e] w1]; [|exact K1].
  cbn [snd] in K1.
  pose proof (ensure_dir_keeps w1 (path.join (directory self) (u "wav"))) as K2.
  unfold ensure_dir in K2. munfold.
  destruct (os.path_exists (path.join (directory self) (u "wav")) w1) as [[b'|e] wc];
    [|eapply keeps_files_trans; eassumption].
  destruct ((if negb b' then os.mkdir (path.join (directory self) (u "wav"))
             else fun s => (Ok (), s)) wc) as [[[]|e] wd];
    eapply keeps_files_trans; eassumption.
Qed.

Lemma convert_one_keeps d p w : keeps_files w (convert_one env d p w).2.
Proof.
  destruct (present_dec w (wav_target d p)) as [H|H].
  - rewrite (convert_one_skip _ _ _ _ H). apply keeps_files_refl.
  - unfold convert_one. fold (wav_target d p). munfold.
    rewrite (path_exists_absent _ _ H). cbn [negb]. unfold sox_build.
    destruct (sox_output env p) as [nd|]; munfold; cbn [snd].
    + apply keeps_files_insert, H.
    + apply keeps_files_refl.
Qed.

Lemma convert_loop_keeps d l : forall w,
  keeps_files w (for_each (convert_one env d) l w).2.
Proof.
  induction l as [|p l IH]; intros w; simpl; munfold.
  - apply keeps_files_refl.
  - pose proof (convert_one_keeps d p w) as K.
    destruct (convert_one env d p w) as [[[]|e] w1]; [|exact K].
    eapply keeps_files_trans; [exact K|apply IH].
Qed.

Lemma convert_keeps self w : keeps_files w (convert env self w).2.
Proof.
  rewrite convert_unfold. pose proof (_pre_convert_keeps self w) as K.
  destruct (_pre_convert self w) as [[d|e] w1]; [|exact K].
  unfold os.glob_mp3 at 1. munfold.
  pose proof (convert_loop_keeps d
    (List.filter
       (fun p => Str.startswith p (mp3_directory self ++ [path.sep])
                 && Str.endswith p (u ".mp3"))
       (map_to_list (files w1)).*1) w1) as K2.
  destruct (for_each (convert_one env d) _ w1) as [[[]|e] w2];
    eapply keeps_files_trans; eassumption.
Qed.

End converts_keep.

(** ** The data sets only read *)

Section reads.
Context (env : Env).
Import GramVaaniDataSets.

Lemma reads_ret {A} (a : A) : reads_only (mret a : M state A).
Proof. intros s. reflexivity. Qed.

Lemma reads_raise {A} e : reads_only (raise e : M state A).
Proof. intros s. reflexivity. Qed.

Lemma reads_lift {A} (r : result A) : reads_only (lift r : M state A).
Proof. intros s. reflexivity. Qed.

Lemma reads_get_self : reads_only get_self.
Proof. intros s. reflexivity. Qed.

Lemma reads_set_raw fr : reads_only (set_raw fr).
Proof. intros s. reflexivity. Qed.

Lemma reads_set_valid fr : reads_only (set_valid fr).
Proof. intros s. reflexivity. Qed.

Lemma reads_getsize p : reads_only (in_world (os.getsize p)).
Proof.
  intros s. unfold in_world, os.getsize. munfold.
  destruct (files s.1 !! p); reflexivity.
Qed.

Lemma reads_soxi_s p : reads_only (in_world (soxi_s p)).
Proof.
  intros s. unfold in_world, soxi_s. munfold.
  destruct (files s.1 !! p) as [nd|]; [destruct (n_frames nd)|]; reflexivity.
Qed.

Lemma reads_bind {A B} (m : M state A) (k : A -> M state B) :
  reads_only m -> (forall a, reads_only (k a)) -> reads_only (m ≫= k).
Proof.
  intros Hm Hk s. specialize (Hm s). munfold.
  destruct (m s) as [[a|e] s1]; [|exact Hm].
  rewrite (Hk a s1). exact Hm.
Qed.

Lemma reads_apply_rows {A B} (f : A -> M state B) l :
  (forall a, reads_only (f a)) -> reads_only (apply_rows f l).
Proof.
  intros Hf. induction l as [|x l IH]; simpl.
  - apply reads_ret.
  - apply reads_bind; [apply Hf|]. intros y.
    apply reads_bind; [exact IH|]. intros ys. apply reads_ret.
Qed.

Create HintDb reads discriminated.
Hint Resolve reads_ret reads_raise reads_lift reads_get_self reads_set_raw
  reads_set_valid reads_getsize reads_soxi_s : reads.

Ltac reads :=
  repeat first
    [ apply reads_bind; [|intros ?]
    | apply reads_apply_rows; intros ?
    | match goal with
      | |- reads_only (if ?b then _ else _) => destruct b
      | |- reads_only (match ?x with _ => _ end) => destruct x
      end
    | solve [auto with reads] ].

Lemma reads_impl url tr len :
  reads_only (_convert_csv_data_to_raw_data_impl env url tr len).
Proof. unfold _convert_csv_data_to_raw_data_impl. reads. Qed.

Lemma reads_convert_raw : reads_only (_convert_csv_data_to_raw_data env).
Proof. unfold _convert_csv_data_to_raw_data. reads; try apply reads_impl. Qed.

Lemma reads_is_row_invalid a b c : reads_only (_is_row_invalid a b c).
Proof. unfold _is_row_invalid. reads. Qed.

Lemma reads_sizes : reads_only _calculate_data_set_sizes.
Proof. unfold _calculate_data_set_sizes. reads. Qed.

Lemma reads_slices : reads_only create_slices.
Proof. unfold create_slices. reads; try apply reads_sizes. Qed.

Lemma reads_create : reads_only (create env).
Proof.
  unfold create. reads;
    auto using reads_convert_raw, reads_is_row_invalid, reads_slices.
Qed.

End reads.

(** The three stages of [main] raise, and keep what is there. *)
Lemma main_stages_run env csv directory w :
  exists e w', main_stages env csv directory w = (Raise e, w') /\ keeps_files w w'.
Proof.
  unfold main_stages. munfold.
  pose proof (download_keeps env (GramVaaniDownloader.__init__ csv directory) w) as K1.
  destruct (GramVaaniDownloader.download env _ w) as [[d|e] w1];
    [|exists e, w1; split; [reflexivity|exact K1]].
  cbn [snd] in K1.
  pose proof (convert_keeps env (GramVaaniConverter.__init__ directory d) w1) as K2.
  destruct (GramVaaniConverter.convert env _ w1) as [[wd|e] w2];
    [|exists e, w2; split; [reflexivity|eapply keeps_files_trans; eassumption]].
  cbn [snd] in K2.
  destruct (create_raises env (w2, GramVaaniDataSets.__init__ directory wd csv))
    as (e & s' & E).
  pose proof (reads_create env (w2, GramVaaniDataSets.__init__ directory wd csv)) as R.
  rewrite E in *. cbn [fst snd] in R. exists e, s'.1. split; [reflexivity|].
  rewrite R. eapply keeps_files_trans; eassumption.
Qed.

(** X8. [convert] never overwrites: whatever file or directory is there
    before is there, unchanged, after, whether [convert] returns or
    raises; sox writes only files that are not there. *)
Theorem convert_never_overwrites
    (env : Env) (self : GramVaaniConverter.t) (w : World) (p : pystr) (nd : node) :
  files w !! p = Some nd ->
  files (GramVaaniConverter.convert env self w).2 !! p = Some nd.
Proof. apply convert_keeps. Qed.

Lemma convert_never_overwrites_witness :
  files (GramVaaniConverter.convert Demo.env_ok Demo.converter
           {| files := <[u "out/wav/a.wav" := Node false 7 None]>
                         (<[u "out/mp3/a.mp3" := Demo.mp3_node]> ∅);
              trace := [] |}).2
    !! u "out/wav/a.wav" = Some (Node false 7 None).
Proof.
  apply (convert_never_overwrites Demo.env_ok Demo.converter
           {| files := <[u "out/wav/a.wav" := Node false 7 None]>
                         (<[u "out/mp3/a.mp3" := Demo.mp3_node]> ∅);
              trace := [] |}
           (u "out/wav/a.wav") (Node false 7 None)).
  vm_compute. reflexivity.
Defined.

(** X9. [create] only reads: it stats and probes the wav files, and the
    world it leaves, files and trace of retrievals and transcodings, is
    the world it found. *)
Theorem create_leaves_the_world (env : Env) (s : GramVaaniDataSets.state) :
  (GramVaaniDataSets.create env s).2.1 = s.1.
Proof. apply reads_create. Qed.

(** X10. From the parsed manifest on, [main] never gets to line 278: the
    download, the conversion or [create] raises, and whatever file was
    there before the run is there, unchanged, when it stops. *)
Theorem main_stops_before_save
    (env : Env) (csv : GramVaaniCSV.t) (directory : pystr) (w : World) :
  exists e w',
    main_stages env csv directory w = (Raise e, w') /\ keeps_files w w'.
Proof. apply main_stages_run. Qed.
